(** * ETL_PubChem: fetch -> compute descriptors -> save

    A shallow embedding of [ETL_PubChem.py].  Python values are a small
    inductive type (the JSON fragment of Python plus the driver's
    ObjectId); exceptions are first-class values with their class and
    message; the three external collaborators (the HTTP client, RDKit and
    the MongoDB driver) are a record of functions, the [World]; every
    side effect the script performs is an [event] appended to a trace
    which the functions thread through. *)

From Stdlib Require Import List String Ascii ZArith Bool Lia.
Import ListNotations.
Local Open Scope string_scope.
Local Open Scope Z_scope.
Local Open Scope list_scope.

Set Warnings "-register-all".

(** ** Python values *)

(** [PyFloat] carries the IEEE-754 binary64 bit pattern of the float, so
    equality of two values is bit-for-bit equality.  [PyDict] is an
    association list in insertion order with string keys (as [json]
    delivers and as the dict literals of the script build). *)
Inductive pyval : Type :=
| PyNone
| PyBool (b : bool)
| PyInt (n : Z)
| PyFloat (bits : Z)
| PyStr (s : string)
| PyList (items : list pyval)
| PyDict (entries : list (string * pyval))
| PyObjectId (oid : Z).

(** ** Exceptions *)

Inductive exn_class : Type :=
| BaseException
| KeyboardInterrupt
| Exception
| ValueError
| TypeError
| LookupError
| KeyError
| IndexError
| AttributeError
| NameError
| UnboundLocalError
| OSError
| RequestException        (* requests.RequestException *)
| RequestsConnectionError (* requests.ConnectionError *)
| InvalidJSONError        (* requests.exceptions.InvalidJSONError *)
| JSONDecodeError         (* requests.exceptions.JSONDecodeError *)
| PyMongoError
| ConnectionFailure
| ConfigurationError.

Definition exn_class_eqb (a b : exn_class) : bool :=
  match a, b with
  | BaseException, BaseException
  | KeyboardInterrupt, KeyboardInterrupt
  | Exception, Exception
  | ValueError, ValueError
  | TypeError, TypeError
  | LookupError, LookupError
  | KeyError, KeyError
  | IndexError, IndexError
  | AttributeError, AttributeError
  | NameError, NameError
  | UnboundLocalError, UnboundLocalError
  | OSError, OSError
  | RequestException, RequestException
  | RequestsConnectionError, RequestsConnectionError
  | InvalidJSONError, InvalidJSONError
  | JSONDecodeError, JSONDecodeError
  | PyMongoError, PyMongoError
  | ConnectionFailure, ConnectionFailure
  | ConfigurationError, ConfigurationError => true
  | _, _ => false
  end.

(** Direct base classes, as declared by CPython, requests and pymongo. *)
Definition bases (c : exn_class) : list exn_class :=
  match c with
  | BaseException => []
  | KeyboardInterrupt => [BaseException]
  | Exception => [BaseException]
  | ValueError | TypeError | LookupError | AttributeError
  | NameError | OSError | PyMongoError => [Exception]
  | KeyError | IndexError => [LookupError]
  | UnboundLocalError => [NameError]
  | RequestException => [OSError]
  | RequestsConnectionError | InvalidJSONError => [RequestException]
  | JSONDecodeError => [InvalidJSONError; ValueError]
  | ConnectionFailure | ConfigurationError => [PyMongoError]
  end.

(** [issubclass c d]: the hierarchy above is five levels deep. *)
Fixpoint issubclass_fuel (fuel : nat) (c d : exn_class) : bool :=
  exn_class_eqb c d ||
  match fuel with
  | O => false
  | S k => existsb (fun b => issubclass_fuel k b d) (bases c)
  end.

Definition issubclass : exn_class -> exn_class -> bool := issubclass_fuel 5.

(** An f-string before it is rendered: literal text and the values that
    are formatted into it ([FStr v] is [{v}], [FRepr v] is [{v!r}]). *)
Inductive fpart : Type :=
| FLit (s : string)
| FStr (v : pyval)
| FRepr (v : pyval).

Definition fstring := list fpart.

Record exn : Type := mkExn { exn_cls : exn_class; exn_msg : fstring }.

Definition isinstance_exn (e : exn) (c : exn_class) : bool :=
  issubclass (exn_cls e) c.

(** ** Effects *)

Inductive level : Type := DEBUG | INFO | ERROR | CRITICAL.

Inductive event : Type :=
| EvHttpGet (url : string)                       (* requests.get(url) *)
| EvLog (lvl : level) (msg : fstring)            (* logger.<lvl>(msg) *)
| EvPPrint (v : pyval)                           (* pprint.pprint(v) *)
| EvPrint (msg : fstring)                        (* print(...) *)
| EvMongoClient (uri : string) (conn : nat)      (* MongoClient(uri) returned conn *)
| EvInsertOne (conn : nat) (db coll : string) (doc : pyval)
| EvClose (conn : nat).                          (* conn.close() *)

Definition trace := list event.

Definition result (A : Type) : Type := (exn + A)%type.

(** Computations thread the trace and stop at the first exception. *)
Definition M (A : Type) : Type := trace -> result A * trace.

Definition ret {A} (a : A) : M A := fun t => (inr a, t).
Definition raise {A} (e : exn) : M A := fun t => (inl e, t).
Definition bind {A B} (m : M A) (k : A -> M B) : M B :=
  fun t => match m t with
           | (inl e, t') => (inl e, t')
           | (inr a, t') => k a t'
           end.
Definition emit (ev : event) : M unit := fun t => (inr tt, t ++ [ev]).
Definition lift {A} (r : result A) : M A := fun t => (r, t).

Notation "x <- m ;; k" := (bind m (fun x => k))
  (at level 61, m at next level, right associativity).
Notation "m ;;; k" := (bind m (fun _ => k))
  (at level 61, right associativity).

(** The same sequencing for the pure helpers, which only can raise. *)
Definition rbind {A B} (r : result A) (k : A -> result B) : result B :=
  match r with inl e => inl e | inr a => k a end.

Notation "x <~ r ;; k" := (rbind r (fun x => k))
  (at level 61, r at next level, right associativity).

(** ** Python operations on values

    Each helper is one Python operation the script performs, with the
    exception CPython raises where the operand has the wrong type
    (message texts as of CPython 3.11). *)

Definition type_name (v : pyval) : string :=
  match v with
  | PyNone => "NoneType"
  | PyBool _ => "bool"
  | PyInt _ => "int"
  | PyFloat _ => "float"
  | PyStr _ => "str"
  | PyList _ => "list"
  | PyDict _ => "dict"
  | PyObjectId _ => "ObjectId"
  end.

(** [bool(v)].  A float is false exactly when it is +0.0 or -0.0, that is
    when its 63 low bits are zero; an ObjectId defines neither [__bool__]
    nor [__len__], so it is true. *)
Definition truthy (v : pyval) : bool :=
  match v with
  | PyNone => false
  | PyBool b => b
  | PyInt n => negb (n =? 0)
  | PyFloat bits => negb (bits mod 2 ^ 63 =? 0)
  | PyStr s => negb (String.eqb s "")
  | PyList l => match l with [] => false | _ => true end
  | PyDict d => match d with [] => false | _ => true end
  | PyObjectId _ => true
  end.

(** [isinstance(v, str)] *)
Definition isinstance_str (v : pyval) : bool :=
  match v with PyStr _ => true | _ => false end.

(** The text of a str value; only ever applied to values that passed
    [isinstance_str]. *)
Definition str_value (v : pyval) : string :=
  match v with PyStr s => s | _ => "" end.

(** [v == s] for a str literal [s]: true only for an equal str. *)
Definition py_eq_str (v : pyval) (s : string) : bool :=
  match v with PyStr s' => String.eqb s' s | _ => false end.

Fixpoint dict_lookup (k : string) (d : list (string * pyval)) : option pyval :=
  match d with
  | [] => None
  | (k', v) :: rest => if String.eqb k' k then Some v else dict_lookup k rest
  end.

(** [d[k] = v] on a dict: an existing key keeps its position. *)
Fixpoint dict_set (k : string) (v : pyval) (d : list (string * pyval))
  : list (string * pyval) :=
  match d with
  | [] => [(k, v)]
  | (k', v') :: rest =>
      if String.eqb k' k then (k', v) :: rest else (k', v') :: dict_set k v rest
  end.

Fixpoint is_substring (needle hay : string) : bool :=
  String.prefix needle hay ||
  match hay with
  | EmptyString => false
  | String _ hay' => is_substring needle hay'
  end.

(** [k in v] for a str literal [k]. *)
Definition py_contains (k : string) (v : pyval) : result bool :=
  match v with
  | PyDict d => inr (match dict_lookup k d with Some _ => true | None => false end)
  | PyList l => inr (existsb (fun x => py_eq_str x k) l)
  | PyStr s => inr (is_substring k s)
  | _ => inl (mkExn TypeError
                [FLit "argument of type '"; FLit (type_name v);
                 FLit "' is not iterable"])
  end.

(** [v[k]] for a str literal [k]. *)
Definition py_getitem_str (v : pyval) (k : string) : result pyval :=
  match v with
  | PyDict d =>
      match dict_lookup k d with
      | Some x => inr x
      | None => inl (mkExn KeyError [FRepr (PyStr k)])
      end
  | PyList _ =>
      inl (mkExn TypeError
             [FLit "list indices must be integers or slices, not str"])
  | PyStr _ =>
      inl (mkExn TypeError [FLit "string indices must be integers, not 'str'"])
  | _ =>
      inl (mkExn TypeError
             [FLit "'"; FLit (type_name v); FLit "' object is not subscriptable"])
  end.

Definition string_get (i : nat) (s : string) : option pyval :=
  match String.get i s with
  | Some c => Some (PyStr (String c EmptyString))
  | None => None
  end.

(** Sequence indexing with Python's negative indices. *)
Definition seq_index {A} (get : nat -> option A) (len : nat) (i : Z) : option A :=
  if (0 <=? i) && (i <? Z.of_nat len) then get (Z.to_nat i)
  else if (- Z.of_nat len <=? i) && (i <? 0) then get (Z.to_nat (Z.of_nat len + i))
  else None.

(** [v[i]] for an int literal [i]. *)
Definition py_getitem_int (v : pyval) (i : Z) : result pyval :=
  match v with
  | PyList l =>
      match seq_index (nth_error l) (List.length l) i with
      | Some x => inr x
      | None => inl (mkExn IndexError [FLit "list index out of range"])
      end
  | PyStr s =>
      match seq_index (fun n => string_get n s) (String.length s) i with
      | Some x => inr x
      | None => inl (mkExn IndexError [FLit "string index out of range"])
      end
  | PyDict _ => inl (mkExn KeyError [FRepr (PyInt i)])
  | _ =>
      inl (mkExn TypeError
             [FLit "'"; FLit (type_name v); FLit "' object is not subscriptable"])
  end.

(** [v.get(k, default)]; [v.get(k)] is [py_get v k PyNone]. *)
Definition py_get (v : pyval) (k : string) (default : pyval) : result pyval :=
  match v with
  | PyDict d =>
      inr (match dict_lookup k d with Some x => x | None => default end)
  | _ =>
      inl (mkExn AttributeError
             [FLit "'"; FLit (type_name v); FLit "' object has no attribute 'get'"])
  end.

Fixpoint string_chars (s : string) : list pyval :=
  match s with
  | EmptyString => []
  | String c s' => PyStr (String c EmptyString) :: string_chars s'
  end.

(** [iter(v)], unrolled: the items a [for] loop over [v] visits. *)
Definition py_iter (v : pyval) : result (list pyval) :=
  match v with
  | PyList l => inr l
  | PyStr s => inr (string_chars s)
  | PyDict d => inr (map (fun kv => PyStr (fst kv)) d)
  | _ =>
      inl (mkExn TypeError
             [FLit "'"; FLit (type_name v); FLit "' object is not iterable"])
  end.

(** [{**v}]: the entries of a mapping. *)
Definition py_unpack_mapping (v : pyval) : result (list (string * pyval)) :=
  match v with
  | PyDict d => inr d
  | _ =>
      inl (mkExn TypeError
             [FLit "'"; FLit (type_name v); FLit "' object is not a mapping"])
  end.

(** ** The external collaborators *)

(** What [requests.get] hands back: the status code and the outcome of
    [response.json()]. *)
Record Response : Type := mkResponse {
  status_code : Z;
  json : result pyval
}.

(** The HTTP service, RDKit and the MongoDB driver as the script sees
    them.  [insert_one w conn db coll doc] is the outcome of
    [conn[db][coll].insert_one(doc)]: an exception, or the ObjectId the
    driver generated for a document that carries no [_id]. *)
Record World : Type := mkWorld {
  requests_get : string -> result Response;
  mol : Type;
  MolFromSmiles : string -> option mol;
  MolWt : mol -> Z;          (* binary64 bits *)
  MolLogP : mol -> Z;        (* binary64 bits *)
  NumHDonors : mol -> Z;
  NumHAcceptors : mol -> Z;
  MongoClient : string -> result nat;
  insert_one : nat -> string -> string -> pyval -> result Z
}.

(** [result.inserted_id]: the document's own [_id] when it has one, the
    generated ObjectId otherwise. *)
Definition inserted_id (doc : pyval) (oid : Z) : pyval :=
  match doc with
  | PyDict d =>
      match dict_lookup "_id" d with
      | Some v => v
      | None => PyObjectId oid
      end
  | _ => PyObjectId oid
  end.

Definition default_base_url : string :=
  "https://pubchem.ncbi.nlm.nih.gov/rest/pug/compound/name".

Definition mongo_uri : string := "mongodb://localhost:27017".

(** The handlers of the entry point, in the order they are tried. *)
Inductive category : Type :=
| Validation    (* except ValueError *)
| Network       (* except requests.RequestException *)
| MongoDB       (* except PyMongoError *)
| Unexpected.   (* except Exception *)

Inductive outcome : Type :=
| Completed (mongo_id : pyval)
| Handled (c : category) (e : exn).

Definition category_label (c : category) : string :=
  match c with
  | Validation => "Validation error: "
  | Network => "Network error: "
  | MongoDB => "MongoDB error: "
  | Unexpected => "Unexpected error: "
  end.

Definition category_level (c : category) : level :=
  match c with
  | Unexpected => CRITICAL
  | _ => ERROR
  end.

(** The first [except] clause of the entry point that matches [e]. *)
Definition handler_of (e : exn) : option category :=
  if isinstance_exn e ValueError then Some Validation
  else if isinstance_exn e RequestException then Some Network
  else if isinstance_exn e PyMongoError then Some MongoDB
  else if isinstance_exn e Exception then Some Unexpected
  else None.

(** ** The exceptions the script raises

    Every [raise] statement of the script raises a ValueError; the sites
    differ by their message.  The names follow the error taxonomy of the
    specification: invalid input, remote error, not found, missing field,
    parse error. *)

Definition invalid_name_error (name : pyval) : exn :=
  mkExn ValueError [FLit "Invalid compound name "; FStr name].

Definition remote_error (status : Z) : exn :=
  mkExn ValueError [FLit "Failed: "; FStr (PyInt status)].

Definition not_found_error (name : pyval) : exn :=
  mkExn ValueError [FLit "No compound data found for: "; FStr name].

Definition missing_field_error (name : pyval) : exn :=
  mkExn ValueError [FLit "No SMILES found for: "; FStr name].

Definition pass_smiles_error (smiles : pyval) : exn :=
  mkExn ValueError [FLit "Pass SMILEs "; FStr smiles].

Definition parse_error : exn :=
  mkExn ValueError [FLit "Failed to transform SMILES into molecules "].

(** What CPython raises when [client] is read in the [finally] clause
    of [save_to_mongo] before it was ever assigned. *)
Definition unbound_client_error : exn :=
  mkExn UnboundLocalError
    [FLit "cannot access local variable 'client' where it is not associated with a value"].

(** [p["value"]["sval"]] *)
Definition sval_of (p : pyval) : result pyval :=
  value <~ py_getitem_str p "value" ;; py_getitem_str value "sval".

(** The dict [compute_descriptors] builds for a parsed molecule. *)
Definition descriptor_set (w : World) (m : mol w) : pyval :=
  PyDict [("MolWt", PyFloat (MolWt w m));
          ("LogP", PyFloat (MolLogP w m));
          ("NumHDonors", PyInt (NumHDonors w m));
          ("NumHAcceptors", PyInt (NumHAcceptors w m))].

Section Pipeline.

Variable w : World.

(** *** fetch_data *)

(** The condition of the [if] inside the loop:
    [p.get("urn", {}).get("label") == "SMILES"
     and p["urn"].get("name") == "Connectivity"]. *)
Definition prop_matches (p : pyval) : result bool :=
  urn <~ py_get p "urn" (PyDict []) ;;
  label <~ py_get urn "label" PyNone ;;
  if py_eq_str label "SMILES" then
    urn' <~ py_getitem_str p "urn" ;;
    name <~ py_get urn' "name" PyNone ;;
    inr (py_eq_str name "Connectivity")
  else inr false.

(** The [for p in props] loop over the items of [props], started with
    [smiles = None]: the value of [smiles] when the loop is left. *)
Fixpoint find_smiles (items : list pyval) : result pyval :=
  match items with
  | [] => inr PyNone
  | p :: rest =>
      hit <~ prop_matches p ;;
      if hit then sval_of p else find_smiles rest
  end.

Definition fetch_data (compound_name : pyval) (base_url : string) : M pyval :=
  if negb (truthy compound_name) || negb (isinstance_str compound_name) then
    raise (invalid_name_error compound_name)
  else
    let url := (base_url ++ "/" ++ str_value compound_name ++ "/JSON")%string in
    emit (EvHttpGet url) ;;;
    response <- lift (requests_get w url) ;;
    emit (EvLog DEBUG [FLit "Fetching from "; FLit url]) ;;;
    if negb (status_code response =? 200) then
      raise (remote_error (status_code response))
    else
      data <- lift (json response) ;;
      emit (EvPPrint data) ;;;
      present <- lift (py_contains "PC_Compounds" data) ;;
      empty <- (if negb present then ret true
                else v <- lift (py_getitem_str data "PC_Compounds") ;;
                     ret (negb (truthy v))) ;;
      if (empty : bool) then
        raise (not_found_error compound_name)
      else
        compounds <- lift (py_getitem_str data "PC_Compounds") ;;
        compound <- lift (py_getitem_int compounds 0) ;;
        props <- lift (py_get compound "props" PyNone) ;;
        emit (EvPPrint props) ;;;
        items <- lift (py_iter props) ;;
        smiles <- lift (find_smiles items) ;;
        if negb (truthy smiles) then
          raise (missing_field_error compound_name)
        else
          emit (EvLog INFO
                  [FLit "Successfully fetched data for: "; FStr compound_name]) ;;;
          ret (PyDict [("name", compound_name); ("smiles", smiles)]).

(** *** compute_descriptors *)

Definition compute_descriptors (smiles : pyval) : M pyval :=
  if negb (truthy smiles) || negb (isinstance_str smiles) then
    raise (pass_smiles_error smiles)
  else
    match MolFromSmiles w (str_value smiles) with
    | None => raise parse_error
    | Some m => ret (descriptor_set w m)
    end.

(** *** save_to_mongo *)

(** The body of the [try]: its outcome, and the local [client] as it
    stands when the body is left ([None] while it is unbound). *)
Definition save_body (document : pyval) (db_name collection_name : string)
  : trace -> result pyval * option nat * trace :=
  fun t =>
    match MongoClient w mongo_uri with
    | inl e => (inl e, None, t)
    | inr client =>
        let t1 := t ++ [EvMongoClient mongo_uri client] in
        let t2 := t1 ++ [EvInsertOne client db_name collection_name document] in
        match insert_one w client db_name collection_name document with
        | inl e => (inl e, Some client, t2)
        | inr oid => (inr (inserted_id document oid), Some client, t2)
        end
    end.

Definition save_to_mongo (document : pyval) (db_name collection_name : string)
  : M pyval :=
  fun t =>
    let '(r, client, t1) := save_body document db_name collection_name t in
    (* except (PyMongoError, ConnectionFailure) as e: log, re-raise *)
    let t2 :=
      match r with
      | inl e =>
          if isinstance_exn e PyMongoError || isinstance_exn e ConnectionFailure
          then t1 ++ [EvLog ERROR (FLit "MongoDB error: " :: exn_msg e)]
          else t1
      | inr _ => t1
      end in
    (* finally: client.close() *)
    match client with
    | None => (inl unbound_client_error, t2)
    | Some c => (r, t2 ++ [EvClose c])
    end.

(** *** The entry point *)

Definition cyrillic_es : string :=
  String "209"%char (String "129"%char EmptyString).

(** The body of the [try] of the entry point, for a compound name. *)
Definition pipeline (compound : pyval) : M pyval :=
  pubchem_data <- fetch_data compound default_base_url ;;
  emit (EvPrint [FLit "Fetched from PubChem:"; FLit " "; FStr pubchem_data]) ;;;
  smiles <- lift (py_getitem_str pubchem_data "smiles") ;;
  descriptors <- compute_descriptors smiles ;;
  emit (EvPrint [FLit "Descriptors:"; FLit " "; FStr descriptors]) ;;;
  entries <- lift (py_unpack_mapping pubchem_data) ;;
  let doc := PyDict (dict_set "descriptors" descriptors entries) in
  mongo_id <- save_to_mongo doc "science_db" "compounds" ;;
  emit (EvPrint [FLit ("Document saved to MongoDB " ++ cyrillic_es ++ " _id=")%string;
                 FStr mongo_id]) ;;;
  ret mongo_id.

(** The [try]/[except] of the entry point: an exception no handler
    matches leaves the script. *)
Definition main_with (compound : pyval) : M outcome :=
  fun t =>
    match pipeline compound t with
    | (inr mongo_id, t') => (inr (Completed mongo_id), t')
    | (inl e, t') =>
        match handler_of e with
        | Some c =>
            (inr (Handled c e),
             t' ++ [EvLog (category_level c) (FLit (category_label c) :: exn_msg e)])
        | None => (inl e, t')
        end
    end.

Definition main : M outcome := main_with (PyStr "aspirin").

End Pipeline.

(** ** Sample responses and worlds *)

Definition aspirin_smiles : string := "CC(=O)OC1=CC=CC=C1C(=O)O".

(** A property tagged SMILES / Connectivity carrying [sval]. *)
Definition smiles_prop (sval : pyval) : pyval :=
  PyDict [("urn", PyDict [("label", PyStr "SMILES");
                          ("name", PyStr "Connectivity")]);
          ("value", PyDict [("sval", sval)])].

Definition formula_prop : pyval :=
  PyDict [("urn", PyDict [("label", PyStr "Molecular Formula")]);
          ("value", PyDict [("sval", PyStr "C9H8O4")])].

Definition compound_with (props : list pyval) : pyval :=
  PyDict [("id", PyDict [("cid", PyInt 2244)]); ("props", PyList props)].

Definition body_of (compounds : list pyval) : pyval :=
  PyDict [("PC_Compounds", PyList compounds)].

(** A service that answers every request with [status] and [body]. *)
Definition serve (status : Z) (body : pyval) : string -> result Response :=
  fun _ => inr (mkResponse status (inr body)).

Inductive sample_mol : Type := Aspirin.

(** A world with the given service and store, and an RDKit that knows
    aspirin only (MolWt 180.159, LogP 1.3101 as binary64 bits). *)
Definition sample_world (get : string -> result Response)
    (client : result nat) (ins : result Z) : World :=
  {| requests_get := get;
     mol := sample_mol;
     MolFromSmiles := fun s =>
       if String.eqb s aspirin_smiles then Some Aspirin else None;
     MolWt := fun _ => 4640542797855392268;
     MolLogP := fun _ => 4608578985044464999;
     NumHDonors := fun _ => 1;
     NumHAcceptors := fun _ => 3;
     MongoClient := fun _ => client;
     insert_one := fun _ _ _ _ => ins |}.

Definition aspirin_body : pyval :=
  body_of [compound_with [formula_prop;
                          smiles_prop (PyStr aspirin_smiles);
                          smiles_prop (PyStr "C")];
           compound_with [smiles_prop (PyStr "O")]].

Definition good_world : World :=
  sample_world (serve 200 aspirin_body) (inr 7%nat) (inr 1234).

Definition empty_list_world : World :=
  sample_world (serve 200 (body_of [])) (inr 7%nat) (inr 1234).

Definition no_list_world : World :=
  sample_world (serve 200 (PyDict [("Fault", PyDict [])])) (inr 7%nat) (inr 1234).

Definition empty_sval_world : World :=
  sample_world
    (serve 200 (body_of [compound_with [smiles_prop (PyStr "")]]))
    (inr 7%nat) (inr 1234).

Definition numeric_sval_world : World :=
  sample_world
    (serve 200 (body_of [compound_with [smiles_prop (PyInt 42)]]))
    (inr 7%nat) (inr 1234).

Definition no_props_world : World :=
  sample_world
    (serve 200 (body_of [PyDict [("id", PyDict [("cid", PyInt 2244)])]]))
    (inr 7%nat) (inr 1234).

Definition not_found_world : World :=
  sample_world (serve 404 (PyDict [("Fault", PyDict [])])) (inr 7%nat) (inr 1234).

Definition configuration_error : exn :=
  mkExn ConfigurationError [FLit "invalid client configuration"].

Definition refused_world : World :=
  sample_world (serve 200 aspirin_body) (inl configuration_error) (inr 1234).

Definition aspirin_doc : pyval :=
  PyDict [("name", PyStr "aspirin");
          ("smiles", PyStr aspirin_smiles);
          ("descriptors", descriptor_set good_world Aspirin)].

(** The events of a trace that touch the network, the store's inserts and
    the releases of a connection. *)
Definition http_gets (t : trace) : list string :=
  flat_map (fun ev => match ev with EvHttpGet u => [u] | _ => [] end) t.

Definition inserted_docs (t : trace) : list pyval :=
  flat_map (fun ev => match ev with EvInsertOne _ _ _ d => [d] | _ => [] end) t.

Definition closes (t : trace) : list nat :=
  flat_map (fun ev => match ev with EvClose c => [c] | _ => [] end) t.

Definition opened (t : trace) : list nat :=
  flat_map (fun ev => match ev with EvMongoClient _ c => [c] | _ => [] end) t.

(** Worlds for the failure paths: a service that cannot be reached, one
    whose body is no JSON, bodies of unexpected shape, and a store whose
    insert fails. *)
Definition connection_refused : exn :=
  mkExn RequestsConnectionError [FLit "connection refused"].

Definition offline_world : World :=
  sample_world (fun _ => inl connection_refused) (inr 7%nat) (inr 1234).

Definition undecodable : exn :=
  mkExn JSONDecodeError [FLit "Expecting value: line 1 column 1 (char 0)"].

Definition garbled_world : World :=
  sample_world (fun _ => inr (mkResponse 200 (inl undecodable)))
    (inr 7%nat) (inr 1234).

Definition null_list_world : World :=
  sample_world (serve 200 (PyDict [("PC_Compounds", PyNone)]))
    (inr 7%nat) (inr 1234).

Definition null_body_world : World :=
  sample_world (serve 200 PyNone) (inr 7%nat) (inr 1234).

(** A property tagged SMILES / Connectivity that carries no value. *)
Definition bare_smiles_prop : pyval :=
  PyDict [("urn", PyDict [("label", PyStr "SMILES");
                          ("name", PyStr "Connectivity")])].

Definition valueless_world : World :=
  sample_world (serve 200 (body_of [compound_with [formula_prop; bare_smiles_prop]]))
    (inr 7%nat) (inr 1234).

Definition server_gone : exn :=
  mkExn ConnectionFailure [FLit "localhost:27017: connection closed"].

Definition store_down_world : World :=
  sample_world (serve 200 aspirin_body) (inr 7%nat) (inl server_gone).

Definition invalid_document : exn :=
  mkExn TypeError [FLit "document must be an instance of dict"].

Definition store_typeerror_world : World :=
  sample_world (serve 200 aspirin_body) (inr 7%nat) (inl invalid_document).

(** The calls to the logger recorded in a trace. *)
Definition logged (t : trace) : list (level * fstring) :=
  flat_map (fun ev => match ev with EvLog l m => [(l, m)] | _ => [] end) t.

(** The JSON values that are no container. *)
Definition is_scalar (v : pyval) : bool :=
  match v with
  | PyNone | PyBool _ | PyInt _ | PyFloat _ => true
  | _ => false
  end.

(** The store events of a trace: connections opened, connections closed,
    documents inserted. *)
Definition store_events (t : trace) : list nat * list nat * list pyval :=
  (opened t, closes t, inserted_docs t).

Definition interrupted : exn := mkExn KeyboardInterrupt [].

Definition interrupted_world : World :=
  sample_world (fun _ => inl interrupted) (inr 7%nat) (inr 1234).

(** ** Premises of the fetcher's properties *)

(** [answers w base n d]: the service answers the request for the
    non-empty name [n] with status 200 and a JSON object [d]. *)
Definition answers (w : World) (base n : string) (d : list (string * pyval))
  : Prop :=
  n <> "" /\
  exists resp,
    requests_get w (base ++ "/" ++ n ++ "/JSON")%string = inr resp /\
    status_code resp = 200 /\
    json resp = inr (PyDict d).

(** [first_entry_props d items]: the compound list of [d] is non-empty and
    its first entry is an object whose property list is [items]. *)
Definition first_entry_props (d : list (string * pyval)) (items : list pyval)
  : Prop :=
  exists c others,
    dict_lookup "PC_Compounds" d = Some (PyList (PyDict c :: others)) /\
    dict_lookup "props" c = Some (PyList items).

(** * Properties *)

(** ** Helper lemmas on the model *)

Ltac run_M := unfold bind, lift, emit, ret, raise.

Lemma nonempty_str_passes (n : string) :
  n <> "" ->
  negb (truthy (PyStr n)) || negb (isinstance_str (PyStr n)) = false.
Proof.
  intros Hn. simpl.
  destruct (String.eqb n "") eqn:E; [| reflexivity].
  apply String.eqb_eq in E. contradiction.
Qed.

Lemma name_check_inv (name : pyval) :
  negb (truthy name) || negb (isinstance_str name) = false ->
  exists n, name = PyStr n /\ n <> "".
Proof.
  destruct name as [| | | | s | | |]; simpl;
    rewrite ?orb_true_r; try discriminate.
  intros H. exists s. split; [reflexivity |].
  rewrite orb_false_r in H. intros ->. discriminate.
Qed.

(** What the condition of the loop accepts, read off the dictionaries. *)
Lemma prop_matches_tagged (d u : list (string * pyval)) :
  dict_lookup "urn" d = Some (PyDict u) ->
  dict_lookup "label" u = Some (PyStr "SMILES") ->
  dict_lookup "name" u = Some (PyStr "Connectivity") ->
  prop_matches (PyDict d) = inr true.
Proof.
  intros Hu Hl Hn. unfold prop_matches. simpl.
  rewrite Hu. simpl. rewrite Hl. simpl. rewrite Hn. reflexivity.
Qed.

(** On an object whose urn is absent or is itself an object, the
    condition is evaluated without an exception. *)
Lemma prop_matches_object (d : list (string * pyval)) :
  dict_lookup "urn" d = None \/
  (exists u, dict_lookup "urn" d = Some (PyDict u)) ->
  exists b, prop_matches (PyDict d) = inr b.
Proof.
  intros [Hu | (u & Hu)]; unfold prop_matches; simpl; rewrite Hu; simpl.
  - eexists. reflexivity.
  - destruct (py_eq_str _ "SMILES"); eexists; reflexivity.
Qed.

Lemma find_smiles_first_match (pre post : list pyval) (p : pyval) :
  Forall (fun q => prop_matches q = inr false) pre ->
  prop_matches p = inr true ->
  find_smiles (pre ++ p :: post) =
  (value <~ py_getitem_str p "value" ;; py_getitem_str value "sval").
Proof.
  intros Hpre Hp. induction Hpre as [| q pre Hq _ IH]; simpl.
  - rewrite Hp. reflexivity.
  - rewrite Hq. simpl. exact IH.
Qed.

Lemma find_smiles_no_match (items : list pyval) :
  Forall (fun q => prop_matches q = inr false) items ->
  find_smiles items = inr PyNone.
Proof.
  induction 1 as [| q items Hq _ IH]; simpl; [reflexivity |].
  rewrite Hq. simpl. exact IH.
Qed.

Section FetchLemmas.

Variable w : World.
Variables (n base : string) (t : trace).
Variables (resp : Response) (d c : list (string * pyval)).
Variables (others items : list pyval).

Let url : string := (base ++ "/" ++ n ++ "/JSON")%string.

Hypothesis name_nonempty : n <> "".
Hypothesis got_response : requests_get w url = inr resp.
Hypothesis status_ok : status_code resp = 200.
Hypothesis body_parsed : json resp = inr (PyDict d).

(** The events of a fetch that reached the property list. *)
Let fetched : trace :=
  t ++ [EvHttpGet url] ++ [EvLog DEBUG [FLit "Fetching from "; FLit url]]
    ++ [EvPPrint (PyDict d)].

Lemma fetch_data_without_compounds :
  dict_lookup "PC_Compounds" d = None \/
  dict_lookup "PC_Compounds" d = Some (PyList []) ->
  fetch_data w (PyStr n) base t =
  (inl (mkExn ValueError [FLit "No compound data found for: "; FStr (PyStr n)]),
   fetched).
Proof.
  intros Hd. unfold fetch_data. rewrite (nonempty_str_passes _ name_nonempty).
  run_M. cbn [str_value]. fold url. rewrite got_response, status_ok.
  cbn [Z.eqb Pos.eqb negb]. rewrite body_parsed.
  unfold fetched. rewrite <- !app_assoc.
  destruct Hd as [Hd | Hd]; simpl; rewrite Hd; reflexivity.
Qed.

Hypothesis first_compound :
  dict_lookup "PC_Compounds" d = Some (PyList (PyDict c :: others)).
Hypothesis property_list : dict_lookup "props" c = Some (PyList items).

(** With a property list in the first compound entry, the result is
    decided by the loop alone. *)
Lemma fetch_data_reaches_loop :
  fetch_data w (PyStr n) base t =
  match find_smiles items with
  | inl e => (inl e, fetched ++ [EvPPrint (PyList items)])
  | inr smiles =>
      if truthy smiles then
        (inr (PyDict [("name", PyStr n); ("smiles", smiles)]),
         fetched ++ [EvPPrint (PyList items)]
           ++ [EvLog INFO [FLit "Successfully fetched data for: "; FStr (PyStr n)]])
      else
        (inl (mkExn ValueError [FLit "No SMILES found for: "; FStr (PyStr n)]),
         fetched ++ [EvPPrint (PyList items)])
  end.
Proof.
  unfold fetch_data. rewrite (nonempty_str_passes _ name_nonempty).
  run_M. cbn [str_value]. fold url. rewrite got_response, status_ok.
  cbn [Z.eqb Pos.eqb negb]. rewrite body_parsed.
  unfold fetched. rewrite <- !app_assoc. simpl.
  rewrite first_compound. simpl. rewrite property_list. simpl.
  destruct (find_smiles items) as [e | smiles];
    [| destruct (truthy smiles)]; simpl; rewrite <- ?app_assoc; reflexivity.
Qed.

End FetchLemmas.

(** Case analysis along the control flow recorded in a hypothesis. *)
Ltac follow H :=
  repeat match type of H with
         | context [match ?x with _ => _ end] =>
             destruct x eqn:?; simpl in H; try discriminate H
         end.

(** A fetch that returns has passed every guard. *)
Lemma fetch_data_success_inv (w : World) (name : pyval) (base : string)
    (t t' : trace) (r : pyval) :
  fetch_data w name base t = (inr r, t') ->
  exists n v data props,
    name = PyStr n /\ n <> "" /\
    r = PyDict [("name", PyStr n); ("smiles", v)] /\
    truthy v = true /\
    t' = t ++ [EvHttpGet (base ++ "/" ++ n ++ "/JSON")%string;
               EvLog DEBUG [FLit "Fetching from ";
                            FLit (base ++ "/" ++ n ++ "/JSON")%string];
               EvPPrint data; EvPPrint props;
               EvLog INFO [FLit "Successfully fetched data for: "; FStr (PyStr n)]].
Proof.
  unfold fetch_data.
  destruct (negb (truthy name) || negb (isinstance_str name)) eqn:Hname;
    [discriminate |].
  destruct (name_check_inv _ Hname) as (n & -> & Hn).
  cbn [str_value]. run_M. intros H.
  follow H.
  match goal with
  | Hc : (if negb ?b then _ else _) _ = (_, ?t0) |- _ =>
      assert (Ht0 : t0 = t ++ [EvHttpGet (base ++ "/" ++ n ++ "/JSON")%string;
                  EvLog DEBUG [FLit "Fetching from ";
                               FLit (base ++ "/" ++ n ++ "/JSON")%string]]
                  ++ [EvPPrint p])
        by (destruct b; simpl in Hc; injection Hc as _ <-;
            rewrite <- !app_assoc; reflexivity);
      clear Hc
  end.
  subst. injection H as <- <-.
  match goal with
  | Hv : negb (truthy ?v) = false |- _ =>
      apply negb_false_iff in Hv; exists n, v
  end.
  do 2 eexists. repeat split; try assumption.
  rewrite <- !app_assoc. reflexivity.
Qed.

(** ** The fetcher *)

(** C7.  A compound name that is the empty string or is not a str makes
    [fetch_data] raise the invalid-name ValueError; the trace is left as
    it was, so no request has been issued. *)
Theorem fetch_data_rejects_invalid_name
    (w : World) (name : pyval) (base : string) (t : trace) :
  name = PyStr "" \/ isinstance_str name = false ->
  fetch_data w name base t = (inl (invalid_name_error name), t) /\
  http_gets (snd (fetch_data w name base t)) = http_gets t.
Proof.
  intros H.
  assert (E : fetch_data w name base t = (inl (invalid_name_error name), t)).
  { unfold fetch_data.
    destruct H as [-> | H]; [reflexivity |].
    rewrite H. cbn [negb]. rewrite orb_true_r. reflexivity. }
  rewrite E. split; reflexivity.
Qed.

Lemma fetch_data_rejects_invalid_name_witness :
  fst (fetch_data good_world (PyStr "") default_base_url []) =
    inl (invalid_name_error (PyStr "")) /\
  fst (fetch_data good_world (PyInt 2244) default_base_url []) =
    inl (invalid_name_error (PyInt 2244)).
Proof.
  split.
  - rewrite (proj1 (fetch_data_rejects_invalid_name good_world (PyStr "")
                      default_base_url [] (or_introl eq_refl))).
    reflexivity.
  - rewrite (proj1 (fetch_data_rejects_invalid_name good_world (PyInt 2244)
                      default_base_url [] (or_intror eq_refl))).
    reflexivity.
Defined.

(** C9 (as amended).  When the service answers with status 200 and a
    JSON object whose compound list is absent or empty, [fetch_data]
    raises the no-compound-data ValueError. *)
Theorem fetch_data_not_found
    (w : World) (base n : string) (d : list (string * pyval)) (t : trace) :
  answers w base n d ->
  dict_lookup "PC_Compounds" d = None \/
  dict_lookup "PC_Compounds" d = Some (PyList []) ->
  fst (fetch_data w (PyStr n) base t) = inl (not_found_error (PyStr n)).
Proof.
  intros (Hn & resp & Hget & Hst & Hjs) Hd.
  rewrite (fetch_data_without_compounds w n base t resp d Hn Hget Hst Hjs Hd).
  reflexivity.
Qed.

Lemma fetch_data_not_found_witness :
  fst (fetch_data empty_list_world (PyStr "aspirin") default_base_url []) =
    inl (not_found_error (PyStr "aspirin")) /\
  fst (fetch_data no_list_world (PyStr "aspirin") default_base_url []) =
    inl (not_found_error (PyStr "aspirin")).
Proof.
  split.
  - apply (fetch_data_not_found empty_list_world default_base_url "aspirin"
             [("PC_Compounds", PyList [])]).
    + split; [discriminate |]. eexists. repeat split.
    + right. reflexivity.
  - apply (fetch_data_not_found no_list_world default_base_url "aspirin"
             [("Fault", PyDict [])]).
    + split; [discriminate |]. eexists. repeat split.
    + left. reflexivity.
Defined.

(** C9 as stated fails: a 200 answer whose body is the JSON value [null]
    holds no compound list, and the membership test of line 30 raises a
    TypeError on it instead of the no-compound-data ValueError; the entry
    point files the run under "Unexpected error". *)
Lemma fetch_data_null_body_counterexample :
  requests_get null_body_world (default_base_url ++ "/aspirin/JSON")%string =
    inr (mkResponse 200 (inr PyNone)) /\
  fst (fetch_data null_body_world (PyStr "aspirin") default_base_url []) =
    inl (mkExn TypeError [FLit "argument of type '"; FLit "NoneType";
                          FLit "' is not iterable"]) /\
  fst (fetch_data null_body_world (PyStr "aspirin") default_base_url []) <>
    inl (not_found_error (PyStr "aspirin")) /\
  fst (main null_body_world []) =
    inr (Handled Unexpected
           (mkExn TypeError [FLit "argument of type '"; FLit "NoneType";
                             FLit "' is not iterable"])).
Proof.
  split; [reflexivity |]. split; [reflexivity |].
  split; [discriminate | reflexivity].
Qed.

(** The loop's verdict decides a fetch that reached the property list. *)
Lemma fetch_data_by_loop
    (w : World) (base n : string) (d : list (string * pyval))
    (items : list pyval) (t : trace) :
  answers w base n d ->
  first_entry_props d items ->
  fst (fetch_data w (PyStr n) base t) =
  match find_smiles items with
  | inl e => inl e
  | inr smiles =>
      if truthy smiles
      then inr (PyDict [("name", PyStr n); ("smiles", smiles)])
      else inl (missing_field_error (PyStr n))
  end.
Proof.
  intros (Hn & resp & Hget & Hst & Hjs) (c & others & Hc & Hp).
  rewrite (fetch_data_reaches_loop w n base t resp d c others items
             Hn Hget Hst Hjs Hc Hp).
  destruct (find_smiles items) as [e | smiles]; [reflexivity |].
  destruct (truthy smiles); reflexivity.
Qed.

(** C1 (as amended).  When the service answers with status 200, the
    compound list is non-empty, and the property list of its first entry
    is [pre ++ p :: post] where the loop's condition is false on every
    item of [pre] and true on [p], and [p] carries a non-empty (truthy)
    sval [v], then [fetch_data] returns the record with the queried name
    and with [v] as smiles, whatever [post] and the later entries hold. *)
Theorem fetch_data_returns_first_match
    (w : World) (base n : string) (d : list (string * pyval))
    (pre post : list pyval) (p v : pyval) (t : trace) :
  answers w base n d ->
  first_entry_props d (pre ++ p :: post) ->
  Forall (fun q => prop_matches q = inr false) pre ->
  prop_matches p = inr true ->
  sval_of p = inr v ->
  truthy v = true ->
  fst (fetch_data w (PyStr n) base t) =
  inr (PyDict [("name", PyStr n); ("smiles", v)]).
Proof.
  intros Ha Hf Hpre Hp Hv Htrue.
  rewrite (fetch_data_by_loop w base n d _ t Ha Hf).
  rewrite (find_smiles_first_match pre post p Hpre Hp).
  fold (sval_of p). rewrite Hv, Htrue. reflexivity.
Qed.

Lemma fetch_data_returns_first_match_witness :
  fst (fetch_data good_world (PyStr "aspirin") default_base_url []) =
  inr (PyDict [("name", PyStr "aspirin"); ("smiles", PyStr aspirin_smiles)]).
Proof.
  apply (fetch_data_returns_first_match good_world default_base_url "aspirin"
           [("PC_Compounds",
             PyList [compound_with [formula_prop;
                                    smiles_prop (PyStr aspirin_smiles);
                                    smiles_prop (PyStr "C")];
                     compound_with [smiles_prop (PyStr "O")]])]
           [formula_prop] [smiles_prop (PyStr "C")]
           (smiles_prop (PyStr aspirin_smiles))).
  - split; [discriminate |]. eexists. repeat split.
  - do 2 eexists. split; reflexivity.
  - repeat constructor.
  - reflexivity.
  - reflexivity.
  - reflexivity.
Defined.

(** C1 as stated fails: the first entry's only property is tagged
    SMILES / Connectivity and carries the sval [""], and [fetch_data]
    raises instead of returning a record with that sval. *)
Lemma fetch_data_empty_sval_counterexample :
  answers empty_sval_world default_base_url "aspirin"
    [("PC_Compounds", PyList [compound_with [smiles_prop (PyStr "")]])] /\
  first_entry_props
    [("PC_Compounds", PyList [compound_with [smiles_prop (PyStr "")]])]
    [smiles_prop (PyStr "")] /\
  prop_matches (smiles_prop (PyStr "")) = inr true /\
  sval_of (smiles_prop (PyStr "")) = inr (PyStr "") /\
  fst (fetch_data empty_sval_world (PyStr "aspirin") default_base_url []) <>
    inr (PyDict [("name", PyStr "aspirin"); ("smiles", PyStr "")]) /\
  fst (fetch_data empty_sval_world (PyStr "aspirin") default_base_url []) =
    inl (missing_field_error (PyStr "aspirin")).
Proof.
  repeat split; try discriminate.
  - eexists. repeat split.
  - do 2 eexists. split; reflexivity.
Qed.

(** When the first entry has a property list on none of whose items the
    loop's condition holds, [fetch_data] raises the no-SMILES ValueError. *)
Lemma fetch_data_no_matching_property
    (w : World) (base n : string) (d : list (string * pyval))
    (items : list pyval) (t : trace) :
  answers w base n d ->
  first_entry_props d items ->
  Forall (fun q => prop_matches q = inr false) items ->
  fst (fetch_data w (PyStr n) base t) = inl (missing_field_error (PyStr n)).
Proof.
  intros Ha Hf Hnone.
  rewrite (fetch_data_by_loop w base n d _ t Ha Hf).
  rewrite (find_smiles_no_match items Hnone). reflexivity.
Qed.

(** C4, the entry without a property list.  [compound.get("props")] is
    [None] and the loop header raises a TypeError; the entry point files
    it under "Unexpected error".  No ValueError is raised. *)
Theorem fetch_data_missing_props_raises_TypeError :
  fst (fetch_data no_props_world (PyStr "aspirin") default_base_url []) =
    inl (mkExn TypeError [FLit "'"; FLit "NoneType"; FLit "' object is not iterable"]) /\
  fst (fetch_data no_props_world (PyStr "aspirin") default_base_url []) <>
    inl (missing_field_error (PyStr "aspirin")) /\
  (exists e t', main no_props_world [] = (inr (Handled Unexpected e), t') /\
                exn_cls e = TypeError).
Proof.
  split; [reflexivity |]. split; [discriminate |].
  do 2 eexists. split; [vm_compute; reflexivity | reflexivity].
Qed.

(** C10 (as amended).  Whenever [fetch_data] returns, the record holds
    the queried name and a smiles value that is truthy: not [None], and
    not empty, so a non-empty string whenever it is a string.  And when
    the first property on which the loop's condition holds carries a
    falsy sval (the empty string among them), [fetch_data] raises the
    no-SMILES ValueError instead of returning. *)
Theorem fetch_data_smiles_is_truthy :
  (forall (w : World) (name : pyval) (base : string) (t t' : trace) (r : pyval),
      fetch_data w name base t = (inr r, t') ->
      exists v,
        r = PyDict [("name", name); ("smiles", v)] /\
        truthy v = true /\
        v <> PyNone /\
        (forall s, v = PyStr s -> s <> "")) /\
  (forall (w : World) (base n : string) (d : list (string * pyval))
          (pre post : list pyval) (p v : pyval) (t : trace),
      answers w base n d ->
      first_entry_props d (pre ++ p :: post) ->
      Forall (fun q => prop_matches q = inr false) pre ->
      prop_matches p = inr true ->
      sval_of p = inr v ->
      truthy v = false ->
      fst (fetch_data w (PyStr n) base t) = inl (missing_field_error (PyStr n))).
Proof.
  split.
  - intros w name base t t' r H.
    destruct (fetch_data_success_inv w name base t t' r H)
      as (n & v & data & props & -> & Hn & -> & Hv & _).
    exists v. repeat split; try assumption.
    + intros ->. discriminate.
    + intros s -> ->. discriminate.
  - intros w base n d pre post p v t Ha Hf Hpre Hp Hv Hfalse.
    rewrite (fetch_data_by_loop w base n d _ t Ha Hf).
    rewrite (find_smiles_first_match pre post p Hpre Hp).
    fold (sval_of p). rewrite Hv, Hfalse. reflexivity.
Qed.

Lemma fetch_data_smiles_is_truthy_witness :
  (exists v,
      PyDict [("name", PyStr "aspirin"); ("smiles", PyStr aspirin_smiles)] =
      PyDict [("name", PyStr "aspirin"); ("smiles", v)] /\
      truthy v = true /\ v <> PyNone /\ (forall s, v = PyStr s -> s <> "")) /\
  fst (fetch_data empty_sval_world (PyStr "aspirin") default_base_url []) =
    inl (missing_field_error (PyStr "aspirin")).
Proof.
  split.
  - apply (proj1 fetch_data_smiles_is_truthy good_world (PyStr "aspirin")
             default_base_url []
             (snd (fetch_data good_world (PyStr "aspirin") default_base_url []))).
    vm_compute. reflexivity.
  - apply (proj2 fetch_data_smiles_is_truthy empty_sval_world default_base_url
             "aspirin"
             [("PC_Compounds", PyList [compound_with [smiles_prop (PyStr "")]])]
             [] [] (smiles_prop (PyStr "")) (PyStr "")).
    + split; [discriminate |]. eexists. repeat split.
    + do 2 eexists. split; reflexivity.
    + constructor.
    + reflexivity.
    + reflexivity.
    + reflexivity.
Defined.

(** C10 as stated fails: a matching property whose sval is the number 42
    makes [fetch_data] return a record whose smiles is that number, which
    is no string. *)
Lemma fetch_data_numeric_sval_counterexample :
  fst (fetch_data numeric_sval_world (PyStr "aspirin") default_base_url []) =
    inr (PyDict [("name", PyStr "aspirin"); ("smiles", PyInt 42)]) /\
  isinstance_str (PyInt 42) = false.
Proof.
  split; reflexivity.
Qed.

(** ** Failures of the service and the entry point's handlers *)

Lemma fetch_data_bad_status
    (w : World) (base n : string) (resp : Response) (t : trace) :
  n <> "" ->
  requests_get w (base ++ "/" ++ n ++ "/JSON")%string = inr resp ->
  status_code resp <> 200 ->
  fetch_data w (PyStr n) base t =
  (inl (remote_error (status_code resp)),
   t ++ [EvHttpGet (base ++ "/" ++ n ++ "/JSON")%string;
         EvLog DEBUG [FLit "Fetching from ";
                      FLit (base ++ "/" ++ n ++ "/JSON")%string]]).
Proof.
  intros Hn Hget Hst. unfold fetch_data.
  rewrite (nonempty_str_passes _ Hn). run_M. cbn [str_value].
  rewrite Hget. apply Z.eqb_neq in Hst. rewrite Hst. cbn [negb].
  rewrite <- app_assoc. reflexivity.
Qed.

(** C3 (as amended).  When the status of the answer is not 200,
    [fetch_data] raises a ValueError with the message "Failed: <status>":
    the class of the invalid-name, no-compound and no-SMILES failures,
    told apart from them by its message only.  The entry point therefore
    handles it in its first clause and logs it at level ERROR as
    "Validation error: Failed: <status>". *)
Theorem bad_status_is_a_validation_error
    (w : World) (n : string) (resp : Response) (t : trace) :
  n <> "" ->
  requests_get w (default_base_url ++ "/" ++ n ++ "/JSON")%string = inr resp ->
  status_code resp <> 200 ->
  let e := remote_error (status_code resp) in
  fst (fetch_data w (PyStr n) default_base_url t) = inl e /\
  exn_cls e = ValueError /\
  (forall name, e <> invalid_name_error name /\
                e <> not_found_error name /\
                e <> missing_field_error name) /\
  (forall name, handler_of e = handler_of (invalid_name_error name)) /\
  handler_of e = Some Validation /\
  main_with w (PyStr n) t =
  (inr (Handled Validation e),
   t ++ [EvHttpGet (default_base_url ++ "/" ++ n ++ "/JSON")%string;
         EvLog DEBUG [FLit "Fetching from ";
                      FLit (default_base_url ++ "/" ++ n ++ "/JSON")%string];
         EvLog ERROR [FLit "Validation error: "; FLit "Failed: ";
                      FStr (PyInt (status_code resp))]]).
Proof.
  intros Hn Hget Hst e.
  pose proof (fetch_data_bad_status w default_base_url n resp t Hn Hget Hst) as E.
  repeat split; try discriminate; try reflexivity.
  - rewrite E. reflexivity.
  - unfold main_with, pipeline, bind. rewrite E. cbn.
    rewrite <- app_assoc. reflexivity.
Qed.

Lemma bad_status_is_a_validation_error_witness :
  fst (main_with not_found_world (PyStr "aspirin") []) =
  inr (Handled Validation (remote_error 404)).
Proof.
  pose proof (bad_status_is_a_validation_error not_found_world "aspirin"
                (mkResponse 404 (inr (PyDict [("Fault", PyDict [])]))) [])
    as H.
  cbv zeta in H.
  destruct H as (_ & _ & _ & _ & _ & H).
  - discriminate.
  - reflexivity.
  - discriminate.
  - rewrite H. reflexivity.
Defined.

(** C3 as stated fails: the failure of a 404 answer is not handled under
    a category of its own; the clause that takes it is the one that takes
    an invalid compound name, and it is not the network clause. *)
Lemma bad_status_counterexample :
  status_code (mkResponse 404 (inr PyNone)) <> 200 /\
  ~ (exists e c,
        fst (fetch_data not_found_world (PyStr "aspirin") default_base_url [])
          = inl e /\
        handler_of e = Some c /\ c <> Validation) /\
  fst (main not_found_world []) = inr (Handled Validation (remote_error 404)) /\
  fst (main not_found_world []) <> inr (Handled Network (remote_error 404)) /\
  handler_of (remote_error 404) = handler_of (invalid_name_error (PyStr "")).
Proof.
  split; [discriminate |]. split.
  - intros (e & c & He & Hc & Hneq).
    vm_compute in He. injection He as <-.
    vm_compute in Hc. injection Hc as <-. apply Hneq. reflexivity.
  - repeat split; try discriminate; reflexivity.
Qed.

(** ** The descriptor calculator *)

Lemma compute_descriptors_parsed
    (w : World) (s : string) (m : mol w) (t : trace) :
  s <> "" ->
  MolFromSmiles w s = Some m ->
  compute_descriptors w (PyStr s) t = (inr (descriptor_set w m), t).
Proof.
  intros Hs Hm. unfold compute_descriptors.
  rewrite (nonempty_str_passes _ Hs). cbn [str_value]. rewrite Hm. reflexivity.
Qed.

Lemma compute_descriptors_success_inv
    (w : World) (smiles : pyval) (t t' : trace) (r : pyval) :
  compute_descriptors w smiles t = (inr r, t') ->
  exists s m,
    smiles = PyStr s /\ s <> "" /\ MolFromSmiles w s = Some m /\
    r = descriptor_set w m /\ t' = t.
Proof.
  unfold compute_descriptors.
  destruct (negb (truthy smiles) || negb (isinstance_str smiles)) eqn:Hchk;
    [discriminate |].
  destruct (name_check_inv _ Hchk) as (s & -> & Hs). cbn [str_value].
  destruct (MolFromSmiles w s) as [m |] eqn:Hm; [| discriminate].
  unfold ret. intros H. injection H as <- <-.
  exists s, m. repeat split; assumption.
Qed.

(** C5.  A non-empty string that RDKit does not parse makes
    [compute_descriptors] raise the failed-to-transform ValueError, with
    no descriptor computed and no effect; and whenever it returns, the
    result is the dict with the four keys MolWt, LogP, NumHDonors and
    NumHAcceptors, in this order and with nothing else. *)
Theorem compute_descriptors_all_or_nothing :
  (forall (w : World) (s : string) (t : trace),
      s <> "" ->
      MolFromSmiles w s = None ->
      compute_descriptors w (PyStr s) t = (inl parse_error, t)) /\
  (forall (w : World) (smiles : pyval) (t t' : trace) (r : pyval),
      compute_descriptors w smiles t = (inr r, t') ->
      exists mw logp hbd hba,
        r = PyDict [("MolWt", PyFloat mw); ("LogP", PyFloat logp);
                    ("NumHDonors", PyInt hbd); ("NumHAcceptors", PyInt hba)]).
Proof.
  split.
  - intros w s t Hs Hm. unfold compute_descriptors.
    rewrite (nonempty_str_passes _ Hs). cbn [str_value]. rewrite Hm.
    reflexivity.
  - intros w smiles t t' r H.
    destruct (compute_descriptors_success_inv w smiles t t' r H)
      as (s & m & _ & _ & _ & -> & _).
    unfold descriptor_set. do 4 eexists. reflexivity.
Qed.

Lemma compute_descriptors_all_or_nothing_witness :
  compute_descriptors good_world (PyStr "C1CC") [] = (inl parse_error, []) /\
  exists mw logp hbd hba,
    descriptor_set good_world Aspirin =
    PyDict [("MolWt", PyFloat mw); ("LogP", PyFloat logp);
            ("NumHDonors", PyInt hbd); ("NumHAcceptors", PyInt hba)].
Proof.
  split.
  - apply (proj1 compute_descriptors_all_or_nothing good_world "C1CC" []).
    + discriminate.
    + reflexivity.
  - apply (proj2 compute_descriptors_all_or_nothing good_world
             (PyStr aspirin_smiles) [] []).
    reflexivity.
Defined.

(** ** The persister *)

Lemma closes_app (a b : trace) : closes (a ++ b) = closes a ++ closes b.
Proof. apply flat_map_app. Qed.

Lemma opened_app (a b : trace) : opened (a ++ b) = opened a ++ opened b.
Proof. apply flat_map_app. Qed.

Lemma inserted_docs_app (a b : trace) :
  inserted_docs (a ++ b) = inserted_docs a ++ inserted_docs b.
Proof. apply flat_map_app. Qed.

(** Once [MongoClient] has returned a connection, every way out of
    [save_to_mongo] closes that connection once, after the insert, and
    the outcome is the outcome of the insert. *)
Lemma save_to_mongo_closes_once
    (w : World) (conn : nat) (document : pyval) (db coll : string) (t : trace) :
  MongoClient w mongo_uri = inr conn ->
  fst (save_to_mongo w document db coll t) =
    match insert_one w conn db coll document with
    | inl e => inl e
    | inr oid => inr (inserted_id document oid)
    end /\
  opened (snd (save_to_mongo w document db coll t)) = opened t ++ [conn] /\
  closes (snd (save_to_mongo w document db coll t)) = closes t ++ [conn] /\
  inserted_docs (snd (save_to_mongo w document db coll t)) =
    inserted_docs t ++ [document].
Proof.
  intros Hc. unfold save_to_mongo, save_body. rewrite Hc.
  destruct (insert_one w conn db coll document) as [e | oid]; cbn [fst snd];
    [destruct (isinstance_exn e PyMongoError || isinstance_exn e ConnectionFailure) |];
    rewrite ?closes_app, ?opened_app, ?inserted_docs_app; cbn;
    rewrite ?app_nil_r; repeat split; reflexivity.
Qed.

(** When [MongoClient] itself raises, [client] is unbound in the
    [finally] clause: nothing is closed, and the UnboundLocalError of the
    release step takes the place of the exception of the constructor. *)
Lemma save_to_mongo_constructor_failure
    (w : World) (e : exn) (document : pyval) (db coll : string) (t : trace) :
  MongoClient w mongo_uri = inl e ->
  fst (save_to_mongo w document db coll t) = inl unbound_client_error /\
  closes (snd (save_to_mongo w document db coll t)) = closes t /\
  opened (snd (save_to_mongo w document db coll t)) = opened t.
Proof.
  intros Hc. unfold save_to_mongo, save_body. rewrite Hc.
  destruct (isinstance_exn e PyMongoError || isinstance_exn e ConnectionFailure);
    cbn [fst snd]; rewrite ?closes_app, ?opened_app; cbn;
    rewrite ?app_nil_r; repeat split; reflexivity.
Qed.

(** C2, the constructor failing.  With a [MongoClient] that raises a
    ConfigurationError, [save_to_mongo] logs it, then leaves with an
    UnboundLocalError from [client.close()] in place of it; no close
    takes place. *)
Theorem save_to_mongo_unbound_client :
  save_to_mongo refused_world aspirin_doc "science_db" "compounds" [] =
    (inl unbound_client_error,
     [EvLog ERROR [FLit "MongoDB error: "; FLit "invalid client configuration"]]) /\
  fst (save_to_mongo refused_world aspirin_doc "science_db" "compounds" []) <>
    inl configuration_error /\
  closes (snd (save_to_mongo refused_world aspirin_doc "science_db" "compounds" []))
    = [].
Proof.
  split; [reflexivity |]. split; [discriminate | reflexivity].
Qed.

(** ** The whole run *)

(** The three stages behind a completed run. *)
Lemma pipeline_success_inv
    (w : World) (name : pyval) (t t' : trace) (mongo_id : pyval) :
  pipeline w name t = (inr mongo_id, t') ->
  exists n s m conn oid t1,
    name = PyStr n /\
    fetch_data w name default_base_url t =
      (inr (PyDict [("name", PyStr n); ("smiles", PyStr s)]), t1) /\
    inserted_docs t1 = inserted_docs t /\
    closes t1 = closes t /\
    MolFromSmiles w s = Some m /\
    MongoClient w mongo_uri = inr conn /\
    insert_one w conn "science_db" "compounds"
      (PyDict [("name", PyStr n); ("smiles", PyStr s);
               ("descriptors", descriptor_set w m)]) = inr oid /\
    mongo_id = PyObjectId oid /\
    inserted_docs t' =
      inserted_docs t ++
      [PyDict [("name", PyStr n); ("smiles", PyStr s);
               ("descriptors", descriptor_set w m)]] /\
    closes t' = closes t ++ [conn].
Proof.
  unfold pipeline. unfold bind at 1.
  destruct (fetch_data w name default_base_url t) as [[e | rec] t1] eqn:Hf;
    [discriminate |].
  destruct (fetch_data_success_inv _ _ _ _ _ _ Hf)
    as (n & v & data & props & -> & Hn & -> & Hv & Ht1).
  run_M. cbn [py_getitem_str dict_lookup String.eqb Ascii.eqb Bool.eqb].
  destruct (compute_descriptors w v (t1 ++ _)) as [[e | ds] t2] eqn:Hd;
    [discriminate |].
  destruct (compute_descriptors_success_inv _ _ _ _ _ Hd)
    as (s & m & -> & Hs & Hm & -> & ->).
  cbn [py_unpack_mapping dict_set String.eqb Ascii.eqb Bool.eqb].
  set (doc := PyDict [("name", PyStr n); ("smiles", PyStr s);
                      ("descriptors", descriptor_set w m)]).
  set (t3 := (t1 ++ _) ++ _).
  destruct (MongoClient w mongo_uri) as [e | conn] eqn:Hc.
  - destruct (save_to_mongo_constructor_failure w e doc "science_db"
                "compounds" t3 Hc) as (Hr & _).
    destruct (save_to_mongo w doc "science_db" "compounds" t3) as [r t4].
    cbn [fst] in Hr. subst r. discriminate.
  - destruct (save_to_mongo_closes_once w conn doc "science_db" "compounds"
                t3 Hc) as (Hr & _ & Hcl & Hins).
    destruct (save_to_mongo w doc "science_db" "compounds" t3) as [r t4].
    cbn [fst snd] in Hr, Hcl, Hins. subst r.
    destruct (insert_one w conn "science_db" "compounds" doc) as [e | oid] eqn:Hi;
      [discriminate |].
    intros H. injection H as <- <-.
    assert (Hi1 : inserted_docs t1 = inserted_docs t)
      by (rewrite Ht1, inserted_docs_app; cbn; apply app_nil_r).
    assert (Hc1 : closes t1 = closes t)
      by (rewrite Ht1, closes_app; cbn; apply app_nil_r).
    assert (Hi3 : inserted_docs t3 = inserted_docs t)
      by (unfold t3; rewrite !inserted_docs_app, Hi1; cbn;
          rewrite !app_nil_r; reflexivity).
    assert (Hc3 : closes t3 = closes t)
      by (unfold t3; rewrite !closes_app, Hc1; cbn;
          rewrite !app_nil_r; reflexivity).
    exists n, s, m, conn, oid, t1.
    repeat split; try assumption; try reflexivity.
    + rewrite inserted_docs_app, Hins, Hi3. cbn. apply app_nil_r.
    + rewrite closes_app, Hcl, Hc3. cbn. apply app_nil_r.
Qed.

(** C8.  When a run completes, the name was a non-empty str [n], the
    fetch returned [{name: n, smiles: s}], RDKit parsed [s], and the one
    document handed to [insert_one] during the run is
    [{name: n, smiles: s, descriptors: {MolWt, LogP, NumHDonors,
    NumHAcceptors}}] with RDKit's four values; the identifier the run
    ends with is the ObjectId the store assigned to that document, a
    truthy value, and the connection used was closed once. *)
Theorem completed_run_document
    (w : World) (name : pyval) (t t' : trace) (mongo_id : pyval) :
  main_with w name t = (inr (Completed mongo_id), t') ->
  exists n s m conn oid,
    name = PyStr n /\
    fst (fetch_data w name default_base_url t) =
      inr (PyDict [("name", PyStr n); ("smiles", PyStr s)]) /\
    MolFromSmiles w s = Some m /\
    let doc :=
      PyDict [("name", PyStr n); ("smiles", PyStr s);
              ("descriptors",
               PyDict [("MolWt", PyFloat (MolWt w m));
                       ("LogP", PyFloat (MolLogP w m));
                       ("NumHDonors", PyInt (NumHDonors w m));
                       ("NumHAcceptors", PyInt (NumHAcceptors w m))])] in
    inserted_docs t' = inserted_docs t ++ [doc] /\
    insert_one w conn "science_db" "compounds" doc = inr oid /\
    mongo_id = PyObjectId oid /\
    truthy mongo_id = true /\
    mongo_id <> PyNone /\
    closes t' = closes t ++ [conn].
Proof.
  unfold main_with.
  destruct (pipeline w name t) as [[e | id] t1] eqn:Hp.
  - destruct (handler_of e); discriminate.
  - intros H. injection H as <- <-.
    destruct (pipeline_success_inv w name t t1 id Hp)
      as (n & s & m & conn & oid & t0 & -> & Hf & _ & _ & Hm & _ & Hi & -> & Hd & Hc).
    exists n, s, m, conn, oid. rewrite Hf.
    repeat split; try assumption; try reflexivity. discriminate.
Qed.

Lemma completed_run_document_witness :
  exists n s m conn oid,
    PyStr "aspirin" = PyStr n /\
    fst (fetch_data good_world (PyStr "aspirin") default_base_url []) =
      inr (PyDict [("name", PyStr n); ("smiles", PyStr s)]) /\
    MolFromSmiles good_world s = Some m /\
    let doc :=
      PyDict [("name", PyStr n); ("smiles", PyStr s);
              ("descriptors",
               PyDict [("MolWt", PyFloat (MolWt good_world m));
                       ("LogP", PyFloat (MolLogP good_world m));
                       ("NumHDonors", PyInt (NumHDonors good_world m));
                       ("NumHAcceptors", PyInt (NumHAcceptors good_world m))])] in
    inserted_docs (snd (main good_world [])) = inserted_docs [] ++ [doc] /\
    insert_one good_world conn "science_db" "compounds" doc = inr oid /\
    PyObjectId 1234 = PyObjectId oid /\
    truthy (PyObjectId 1234) = true /\
    PyObjectId 1234 <> PyNone /\
    closes (snd (main good_world [])) = closes [] ++ [conn].
Proof.
  apply (completed_run_document good_world (PyStr "aspirin") []
           (snd (main good_world [])) (PyObjectId 1234)).
  vm_compute. reflexivity.
Defined.

(** * Further properties of the script *)

(** ** What a fetch leaves in the trace *)

Lemma http_gets_app (a b : trace) :
  http_gets (a ++ b) = http_gets a ++ http_gets b.
Proof. apply flat_map_app. Qed.

Lemma logged_app (a b : trace) : logged (a ++ b) = logged a ++ logged b.
Proof. apply flat_map_app. Qed.

(** Case analysis on a scrutinee of the goal that holds no other one. *)
Ltac innermost_case :=
  match goal with
  | |- context [match ?x with _ => _ end] =>
      lazymatch x with
      | context [match _ with _ => _ end] => fail
      | _ => destruct x eqn:?; cbn [negb fst snd]
      end
  end.

(** Whatever the outcome, a fetch for a valid name appends the request and
    then only logger and pprint events. *)
Lemma fetch_data_events
    (w : World) (base n : string) (t : trace) :
  n <> "" ->
  exists evs,
    snd (fetch_data w (PyStr n) base t) =
      t ++ EvHttpGet (base ++ "/" ++ n ++ "/JSON")%string :: evs /\
    http_gets evs = [] /\ inserted_docs evs = [] /\
    opened evs = [] /\ closes evs = [].
Proof.
  intros Hn. unfold fetch_data. rewrite (nonempty_str_passes _ Hn).
  cbn [str_value]. run_M.
  repeat innermost_case;
    rewrite <- ?app_assoc; cbn [app];
    eexists; (split; [reflexivity | repeat split; reflexivity]).
Qed.

(** An exception of the fetch reaches the handlers of the entry point as
    it is. *)
Lemma main_with_fetch_failure
    (w : World) (name : pyval) (t t1 : trace) (e : exn) (c : category) :
  fetch_data w name default_base_url t = (inl e, t1) ->
  handler_of e = Some c ->
  main_with w name t =
  (inr (Handled c e),
   t1 ++ [EvLog (category_level c) (FLit (category_label c) :: exn_msg e)]).
Proof.
  intros Hf Hh. unfold main_with, pipeline. unfold bind at 1.
  rewrite Hf, Hh. reflexivity.
Qed.

(** X1.  When [requests.get] itself raises a RequestException that is no
    ValueError (the service cannot be reached), [fetch_data] lets it
    through right after the request, before the debug line is logged, and
    the entry point logs it at level ERROR as "Network error: ...". *)
Theorem transport_failure_is_a_network_error
    (w : World) (n : string) (e : exn) (t : trace) :
  n <> "" ->
  requests_get w (default_base_url ++ "/" ++ n ++ "/JSON")%string = inl e ->
  isinstance_exn e ValueError = false ->
  isinstance_exn e RequestException = true ->
  fetch_data w (PyStr n) default_base_url t =
    (inl e, t ++ [EvHttpGet (default_base_url ++ "/" ++ n ++ "/JSON")%string]) /\
  main_with w (PyStr n) t =
    (inr (Handled Network e),
     t ++ [EvHttpGet (default_base_url ++ "/" ++ n ++ "/JSON")%string;
           EvLog ERROR (FLit "Network error: " :: exn_msg e)]).
Proof.
  intros Hn Hget Hv Hr.
  assert (E : fetch_data w (PyStr n) default_base_url t =
              (inl e, t ++ [EvHttpGet (default_base_url ++ "/" ++ n ++ "/JSON")%string])).
  { unfold fetch_data. rewrite (nonempty_str_passes _ Hn). run_M.
    cbn [str_value]. rewrite Hget. reflexivity. }
  split; [exact E |].
  rewrite (main_with_fetch_failure w _ t _ e Network E).
  - rewrite <- app_assoc. reflexivity.
  - unfold handler_of. rewrite Hv, Hr. reflexivity.
Qed.

Lemma transport_failure_is_a_network_error_witness :
  main offline_world [] =
  (inr (Handled Network connection_refused),
   [EvHttpGet (default_base_url ++ "/aspirin/JSON")%string;
    EvLog ERROR [FLit "Network error: "; FLit "connection refused"]]).
Proof.
  apply (proj2 (transport_failure_is_a_network_error offline_world "aspirin"
                  connection_refused [] ltac:(discriminate) eq_refl eq_refl eq_refl)).
Defined.

(** X2.  For a non-empty name, whatever the service answers and however
    the fetch ends, [fetch_data] issues exactly one request, to
    [base/name/JSON] with the name spliced in as it is, and it neither
    opens nor closes a store connection nor inserts a document. *)
Theorem fetch_data_issues_one_request
    (w : World) (base n : string) (t : trace) :
  n <> "" ->
  http_gets (snd (fetch_data w (PyStr n) base t)) =
    http_gets t ++ [(base ++ "/" ++ n ++ "/JSON")%string] /\
  inserted_docs (snd (fetch_data w (PyStr n) base t)) = inserted_docs t /\
  opened (snd (fetch_data w (PyStr n) base t)) = opened t /\
  closes (snd (fetch_data w (PyStr n) base t)) = closes t.
Proof.
  intros Hn.
  destruct (fetch_data_events w base n t Hn) as (evs & -> & Hg & Hi & Ho & Hc).
  rewrite http_gets_app, inserted_docs_app, opened_app, closes_app.
  cbn [http_gets inserted_docs opened closes flat_map app].
  fold (http_gets evs) (inserted_docs evs) (opened evs) (closes evs).
  rewrite Hg, Hi, Ho, Hc, !app_nil_r. repeat split; reflexivity.
Qed.

Lemma fetch_data_issues_one_request_witness :
  http_gets (snd (fetch_data not_found_world (PyStr "as pirin") "http://host" []))
  = [] ++ ["http://host/as pirin/JSON"].
Proof.
  apply (fetch_data_issues_one_request not_found_world "http://host" "as pirin" []).
  discriminate.
Defined.

(** X3.  When the answer has status 200 and [response.json()] raises,
    [fetch_data] lets that exception through, whatever its class, after
    the debug line; the JSONDecodeError of requests is both a
    RequestException and a ValueError, and the entry point, which tries
    ValueError first, logs it as "Validation error: ...", not as a
    network error. *)
Theorem undecodable_body_is_a_validation_error
    (w : World) (n : string) (resp : Response) (e : exn) (t : trace) :
  n <> "" ->
  requests_get w (default_base_url ++ "/" ++ n ++ "/JSON")%string = inr resp ->
  status_code resp = 200 ->
  json resp = inl e ->
  fetch_data w (PyStr n) default_base_url t =
    (inl e,
     t ++ [EvHttpGet (default_base_url ++ "/" ++ n ++ "/JSON")%string;
           EvLog DEBUG [FLit "Fetching from ";
                        FLit (default_base_url ++ "/" ++ n ++ "/JSON")%string]]) /\
  (exn_cls e = JSONDecodeError ->
   isinstance_exn e RequestException = true /\
   fst (main_with w (PyStr n) t) = inr (Handled Validation e) /\
   logged (snd (main_with w (PyStr n) t)) =
     logged t ++
     [(DEBUG, [FLit "Fetching from ";
               FLit (default_base_url ++ "/" ++ n ++ "/JSON")%string]);
      (ERROR, FLit "Validation error: " :: exn_msg e)]).
Proof.
  intros Hn Hget Hst Hjs.
  assert (E : fetch_data w (PyStr n) default_base_url t =
    (inl e,
     t ++ [EvHttpGet (default_base_url ++ "/" ++ n ++ "/JSON")%string;
           EvLog DEBUG [FLit "Fetching from ";
                        FLit (default_base_url ++ "/" ++ n ++ "/JSON")%string]])).
  { unfold fetch_data. rewrite (nonempty_str_passes _ Hn). run_M.
    cbn [str_value]. rewrite Hget, Hst. cbn [Z.eqb Pos.eqb negb].
    rewrite Hjs, <- app_assoc. reflexivity. }
  split; [exact E |]. intros Hcls.
  assert (Hh : handler_of e = Some Validation)
    by (unfold handler_of, isinstance_exn; rewrite Hcls; reflexivity).
  split; [unfold isinstance_exn; rewrite Hcls; reflexivity |].
  rewrite (main_with_fetch_failure w _ t _ e Validation E Hh).
  split; [reflexivity |].
  cbn [snd]. rewrite !logged_app.
  cbn [logged flat_map app category_level category_label].
  rewrite <- app_assoc. reflexivity.
Qed.

Lemma undecodable_body_is_a_validation_error_witness :
  fst (fetch_data garbled_world (PyStr "aspirin") default_base_url []) =
    inl undecodable /\
  fst (main garbled_world []) = inr (Handled Validation undecodable).
Proof.
  destruct (undecodable_body_is_a_validation_error garbled_world "aspirin"
              (mkResponse 200 (inl undecodable)) undecodable []
              ltac:(discriminate) eq_refl eq_refl eq_refl) as (E & H).
  split.
  - rewrite E. reflexivity.
  - exact (proj1 (proj2 (H eq_refl))).
Defined.

(** ** Unexpected shapes of the answer *)

(** X4.  A compound list that is present but falsy ([null], [0], [""],
    [{}] as well as [[]]) is treated like an absent one: [fetch_data]
    raises the no-compound-data ValueError and indexes nothing. *)
Theorem fetch_data_falsy_compound_list
    (w : World) (base n : string) (d : list (string * pyval)) (v : pyval)
    (t : trace) :
  answers w base n d ->
  dict_lookup "PC_Compounds" d = Some v ->
  truthy v = false ->
  fst (fetch_data w (PyStr n) base t) = inl (not_found_error (PyStr n)).
Proof.
  intros (Hn & resp & Hget & Hst & Hjs) Hd Hv. unfold fetch_data.
  rewrite (nonempty_str_passes _ Hn). run_M. cbn [str_value].
  rewrite Hget, Hst. cbn [Z.eqb Pos.eqb negb]. rewrite Hjs.
  cbn [py_contains py_getitem_str]. rewrite Hd. cbn [negb]. rewrite Hv.
  reflexivity.
Qed.

Lemma fetch_data_falsy_compound_list_witness :
  fst (fetch_data null_list_world (PyStr "aspirin") default_base_url []) =
  inl (not_found_error (PyStr "aspirin")).
Proof.
  apply (fetch_data_falsy_compound_list null_list_world default_base_url
           "aspirin" [("PC_Compounds", PyNone)] PyNone).
  - split; [discriminate |]. eexists. repeat split.
  - reflexivity.
  - reflexivity.
Defined.

(** X5.  When the body of a 200 answer is a JSON scalar ([null], a
    boolean or a number), the membership test on it raises a TypeError,
    not one of the ValueErrors of [fetch_data], and the entry point logs
    it at level CRITICAL as "Unexpected error: ...". *)
Theorem scalar_body_is_an_unexpected_error
    (w : World) (n : string) (resp : Response) (data : pyval) (t : trace) :
  n <> "" ->
  requests_get w (default_base_url ++ "/" ++ n ++ "/JSON")%string = inr resp ->
  status_code resp = 200 ->
  json resp = inr data ->
  is_scalar data = true ->
  exists e,
    fst (fetch_data w (PyStr n) default_base_url t) = inl e /\
    exn_cls e = TypeError /\
    fst (main_with w (PyStr n) t) = inr (Handled Unexpected e) /\
    exists m, last (snd (main_with w (PyStr n) t)) (EvClose 0) = EvLog CRITICAL m.
Proof.
  intros Hn Hget Hst Hjs Hsc.
  exists (mkExn TypeError [FLit "argument of type '"; FLit (type_name data);
                           FLit "' is not iterable"]).
  assert (E : fetch_data w (PyStr n) default_base_url t =
    (inl (mkExn TypeError [FLit "argument of type '"; FLit (type_name data);
                           FLit "' is not iterable"]),
     t ++ [EvHttpGet (default_base_url ++ "/" ++ n ++ "/JSON")%string;
           EvLog DEBUG [FLit "Fetching from ";
                        FLit (default_base_url ++ "/" ++ n ++ "/JSON")%string];
           EvPPrint data])).
  { unfold fetch_data. rewrite (nonempty_str_passes _ Hn). run_M.
    cbn [str_value]. rewrite Hget, Hst. cbn [Z.eqb Pos.eqb negb]. rewrite Hjs.
    rewrite <- !app_assoc.
    destruct data; try discriminate Hsc; reflexivity. }
  rewrite (main_with_fetch_failure w _ t _ _ Unexpected E eq_refl), E.
  repeat split. eexists. cbn [snd]. apply last_last.
Qed.

Lemma scalar_body_is_an_unexpected_error_witness :
  exists e,
    fst (fetch_data null_body_world (PyStr "aspirin") default_base_url []) = inl e /\
    exn_cls e = TypeError /\
    fst (main_with null_body_world (PyStr "aspirin") []) =
      inr (Handled Unexpected e) /\
    exists m,
      last (snd (main_with null_body_world (PyStr "aspirin") [])) (EvClose 0) =
      EvLog CRITICAL m.
Proof.
  apply (scalar_body_is_an_unexpected_error null_body_world "aspirin"
           (mkResponse 200 (inr PyNone)) PyNone []
           ltac:(discriminate) eq_refl eq_refl eq_refl eq_refl).
Defined.

Lemma py_eq_str_true (v : pyval) (s : string) :
  py_eq_str v s = true <-> v = PyStr s.
Proof.
  split.
  - destruct v; try discriminate. intros H.
    apply String.eqb_eq in H. subst. reflexivity.
  - intros ->. apply String.eqb_refl.
Qed.

(** X6.  The loop's condition holds on a property exactly when the
    property is an object whose [urn] is an object with label the str
    "SMILES" and name the str "Connectivity".  An object without urn, or
    whose urn is an object with another label (or none) or with another
    name (or none), is passed over: the condition is false on it and no
    exception is raised. *)
Theorem prop_matches_accepts_or_skips :
  (forall p,
      prop_matches p = inr true <->
      exists d u,
        p = PyDict d /\
        dict_lookup "urn" d = Some (PyDict u) /\
        dict_lookup "label" u = Some (PyStr "SMILES") /\
        dict_lookup "name" u = Some (PyStr "Connectivity")) /\
  (forall d,
      dict_lookup "urn" d = None ->
      prop_matches (PyDict d) = inr false) /\
  (forall d u,
      dict_lookup "urn" d = Some (PyDict u) ->
      dict_lookup "label" u <> Some (PyStr "SMILES") \/
      dict_lookup "name" u <> Some (PyStr "Connectivity") ->
      prop_matches (PyDict d) = inr false).
Proof.
  split; [| split].
  - intros p. split.
    + unfold prop_matches. destruct p as [| | | | | | d |]; try discriminate.
      cbn [py_get rbind py_getitem_str].
      destruct (dict_lookup "urn" d) as [urn |] eqn:Hu; [| discriminate].
      destruct urn as [| | | | | | u |]; try discriminate.
      cbn [py_get rbind].
      destruct (dict_lookup "label" u) as [l |] eqn:Hl; [| discriminate].
      destruct (py_eq_str l "SMILES") eqn:El; [| discriminate].
      destruct (dict_lookup "name" u) as [nm |] eqn:Hnm; [| discriminate].
      intros H. injection H as En.
      apply py_eq_str_true in El, En. subst.
      exists d, u. repeat split; assumption.
    + intros (d & u & -> & Hu & Hl & Hn).
      exact (prop_matches_tagged d u Hu Hl Hn).
  - intros d Hu. unfold prop_matches. cbn [py_get rbind]. rewrite Hu.
    reflexivity.
  - intros d u Hu Hor. unfold prop_matches.
    cbn [py_get rbind py_getitem_str]. rewrite Hu. cbn [py_get rbind].
    destruct (dict_lookup "label" u) as [l |] eqn:Hl; [| reflexivity].
    destruct (py_eq_str l "SMILES") eqn:El; [| reflexivity].
    apply py_eq_str_true in El. subst l.
    destruct Hor as [Hor | Hor]; [contradiction Hor; reflexivity |].
    destruct (dict_lookup "name" u) as [nm |] eqn:Hnm; [| reflexivity].
    destruct (py_eq_str nm "Connectivity") eqn:En; [| reflexivity].
    apply py_eq_str_true in En. subst nm. contradiction Hor. reflexivity.
Qed.

Lemma prop_matches_accepts_or_skips_witness :
  prop_matches (PyDict [("value", PyDict [("sval", PyStr "C9H8O4")])]) =
    inr false /\
  prop_matches formula_prop = inr false /\
  prop_matches (PyDict [("urn", PyDict [("label", PyStr "SMILES");
                                        ("name", PyStr "Isomeric")])]) =
    inr false.
Proof.
  destruct prop_matches_accepts_or_skips as (_ & Hno & Hother).
  split; [| split].
  - apply Hno. reflexivity.
  - apply (Hother _ [("label", PyStr "Molecular Formula")]).
    + reflexivity.
    + left. discriminate.
  - apply (Hother _ [("label", PyStr "SMILES"); ("name", PyStr "Isomeric")]).
    + reflexivity.
    + right. discriminate.
Defined.

(** X7.  When the first property the loop's condition holds on has no
    [value] key, [fetch_data] raises KeyError('value') and not the
    no-SMILES ValueError; the entry point files it under "Unexpected
    error". *)
Theorem fetch_data_match_without_value
    (w : World) (n : string) (d pd : list (string * pyval))
    (pre post : list pyval) (t : trace) :
  answers w default_base_url n d ->
  first_entry_props d (pre ++ PyDict pd :: post) ->
  Forall (fun q => prop_matches q = inr false) pre ->
  prop_matches (PyDict pd) = inr true ->
  dict_lookup "value" pd = None ->
  fst (fetch_data w (PyStr n) default_base_url t) =
    inl (mkExn KeyError [FRepr (PyStr "value")]) /\
  fst (main_with w (PyStr n) t) =
    inr (Handled Unexpected (mkExn KeyError [FRepr (PyStr "value")])).
Proof.
  intros Ha Hf Hpre Hp Hv.
  assert (E : fst (fetch_data w (PyStr n) default_base_url t) =
              inl (mkExn KeyError [FRepr (PyStr "value")])).
  { rewrite (fetch_data_by_loop w _ n d _ t Ha Hf).
    rewrite (find_smiles_first_match pre post _ Hpre Hp).
    unfold sval_of. cbn [py_getitem_str]. rewrite Hv. reflexivity. }
  split; [exact E |].
  destruct (fetch_data w (PyStr n) default_base_url t) as [r t1] eqn:Hfd.
  cbn [fst] in E. subst r.
  rewrite (main_with_fetch_failure w _ t t1 _ Unexpected Hfd eq_refl).
  reflexivity.
Qed.

Lemma fetch_data_match_without_value_witness :
  fst (main valueless_world []) =
  inr (Handled Unexpected (mkExn KeyError [FRepr (PyStr "value")])).
Proof.
  refine (proj2 (fetch_data_match_without_value valueless_world "aspirin"
           [("PC_Compounds", PyList [compound_with [formula_prop; bare_smiles_prop]])]
           [("urn", PyDict [("label", PyStr "SMILES");
                            ("name", PyStr "Connectivity")])]
           [formula_prop] [] [] _ _ _ _ _)).
  - split; [discriminate |]. eexists. repeat split.
  - do 2 eexists. split; reflexivity.
  - repeat constructor.
  - reflexivity.
  - reflexivity.
Defined.

(** X8.  The outcome of a fetch, value or exception, depends on the first
    entry of the compound list only: two 200 answers whose lists start
    with the same entry give the same outcome, whatever follows it and
    whatever else the bodies hold. *)
Theorem fetch_data_first_entry_only
    (w1 w2 : World) (base n : string) (d1 d2 : list (string * pyval))
    (entry : pyval) (rest1 rest2 : list pyval) (t1 t2 : trace) :
  answers w1 base n d1 ->
  answers w2 base n d2 ->
  dict_lookup "PC_Compounds" d1 = Some (PyList (entry :: rest1)) ->
  dict_lookup "PC_Compounds" d2 = Some (PyList (entry :: rest2)) ->
  fst (fetch_data w1 (PyStr n) base t1) = fst (fetch_data w2 (PyStr n) base t2).
Proof.
  intros (Hn & r1 & Hg1 & Hs1 & Hj1) (_ & r2 & Hg2 & Hs2 & Hj2) Hd1 Hd2.
  unfold fetch_data. rewrite (nonempty_str_passes _ Hn). run_M.
  cbn [str_value]. rewrite Hg1, Hg2, Hs1, Hs2. cbn [Z.eqb Pos.eqb negb].
  rewrite Hj1, Hj2. cbn [py_contains py_getitem_str]. rewrite Hd1, Hd2.
  cbn [negb truthy py_getitem_int seq_index nth_error List.length
       Z.of_nat Z.leb Z.ltb Z.compare andb Z.to_nat Pos.of_succ_nat].
  repeat innermost_case; reflexivity.
Qed.

Lemma fetch_data_first_entry_only_witness :
  fst (fetch_data good_world (PyStr "aspirin") default_base_url []) =
  fst (fetch_data
         (sample_world
            (serve 200 (PyDict [("PC_Compounds",
                                 PyList [compound_with
                                           [formula_prop;
                                            smiles_prop (PyStr aspirin_smiles);
                                            smiles_prop (PyStr "C")]]);
                                ("extra", PyNone)]))
            (inr 7%nat) (inr 1234))
         (PyStr "aspirin") default_base_url [EvPrint []]).
Proof.
  eapply fetch_data_first_entry_only.
  - split; [discriminate |]. eexists. repeat split.
  - split; [discriminate |]. eexists. repeat split.
  - reflexivity.
  - reflexivity.
Defined.

(** ** The descriptor calculator in the run *)

(** X9.  A smiles argument that is the empty string or is not a str makes
    [compute_descriptors] raise the "Pass SMILEs" ValueError with no
    effect, whatever RDKit would have made of it. *)
Theorem compute_descriptors_rejects_non_text
    (w : World) (smiles : pyval) (t : trace) :
  smiles = PyStr "" \/ isinstance_str smiles = false ->
  compute_descriptors w smiles t = (inl (pass_smiles_error smiles), t).
Proof.
  intros H. unfold compute_descriptors.
  destruct H as [-> | H]; [reflexivity |].
  rewrite H. cbn [negb]. rewrite orb_true_r. reflexivity.
Qed.

Lemma compute_descriptors_rejects_non_text_witness :
  compute_descriptors good_world (PyStr "") [] =
    (inl (pass_smiles_error (PyStr "")), []) /\
  compute_descriptors good_world (PyInt 42) [] =
    (inl (pass_smiles_error (PyInt 42)), []).
Proof.
  split.
  - apply (compute_descriptors_rejects_non_text good_world (PyStr "") []).
    left. reflexivity.
  - apply (compute_descriptors_rejects_non_text good_world (PyInt 42) []).
    right. reflexivity.
Defined.

(** The calculator's outcome does not depend on the trace, which it
    leaves alone. *)
Lemma compute_descriptors_pure (w : World) (smiles : pyval) (t : trace) :
  compute_descriptors w smiles t = (fst (compute_descriptors w smiles []), t).
Proof.
  unfold compute_descriptors, raise, ret.
  repeat innermost_case; reflexivity.
Qed.

(** Every exception of the calculator is a ValueError. *)
Lemma compute_descriptors_raises_ValueError
    (w : World) (smiles : pyval) (e : exn) :
  fst (compute_descriptors w smiles []) = inl e ->
  handler_of e = Some Validation.
Proof.
  unfold compute_descriptors, raise, ret.
  repeat innermost_case; intros H; try discriminate H;
    injection H as <-; reflexivity.
Qed.

(** X10.  When the fetch has returned a record and the calculator then
    rejects its smiles (not a str, or a string RDKit cannot parse), the
    run stops there: the entry point logs "Validation error: ...", and no
    store connection is opened and nothing is inserted. *)
Theorem calculator_failure_stops_the_run
    (w : World) (name v : pyval) (e : exn) (t t1 : trace) :
  fetch_data w name default_base_url t =
    (inr (PyDict [("name", name); ("smiles", v)]), t1) ->
  fst (compute_descriptors w v []) = inl e ->
  main_with w name t =
    (inr (Handled Validation e),
     t1 ++ [EvPrint [FLit "Fetched from PubChem:"; FLit " ";
                     FStr (PyDict [("name", name); ("smiles", v)])];
            EvLog ERROR (FLit "Validation error: " :: exn_msg e)]) /\
  opened (snd (main_with w name t)) = opened t /\
  inserted_docs (snd (main_with w name t)) = inserted_docs t.
Proof.
  intros Hf Hc.
  assert (E : main_with w name t =
    (inr (Handled Validation e),
     t1 ++ [EvPrint [FLit "Fetched from PubChem:"; FLit " ";
                     FStr (PyDict [("name", name); ("smiles", v)])];
            EvLog ERROR (FLit "Validation error: " :: exn_msg e)])).
  { unfold main_with, pipeline. unfold bind at 1. rewrite Hf. run_M.
    cbn [py_getitem_str dict_lookup String.eqb Ascii.eqb Bool.eqb].
    rewrite compute_descriptors_pure, Hc.
    rewrite (compute_descriptors_raises_ValueError w v e Hc).
    rewrite <- app_assoc. reflexivity. }
  rewrite E. split; [reflexivity |]. cbn [snd].
  destruct (fetch_data_success_inv w name _ t t1 _ Hf)
    as (n & v' & data & props & -> & Hn & _ & _ & ->).
  rewrite !opened_app, !inserted_docs_app. cbn. rewrite !app_nil_r.
  split; reflexivity.
Qed.

Lemma calculator_failure_stops_the_run_witness :
  fst (main numeric_sval_world []) =
    inr (Handled Validation (pass_smiles_error (PyInt 42))) /\
  opened (snd (main numeric_sval_world [])) = [].
Proof.
  destruct (calculator_failure_stops_the_run numeric_sval_world
              (PyStr "aspirin") (PyInt 42) (pass_smiles_error (PyInt 42)) []
              (snd (fetch_data numeric_sval_world (PyStr "aspirin")
                      default_base_url []))
              eq_refl eq_refl) as (E & Ho & _).
  unfold main. split; [rewrite E; reflexivity | exact Ho].
Defined.

(** ** The persister and the store's failures *)

(** ConnectionFailure is a PyMongoError, so the second class of the
    [except] tuple of [save_to_mongo] adds nothing to the first. *)
Lemma connection_failure_is_mongo (c : exn_class) :
  issubclass c PyMongoError || issubclass c ConnectionFailure =
  issubclass c PyMongoError.
Proof. destruct c; reflexivity. Qed.

(** A PyMongoError is neither a ValueError nor a RequestException, so it
    is the third clause of the entry point that takes it. *)
Lemma mongo_error_handler (e : exn) :
  isinstance_exn e PyMongoError = true -> handler_of e = Some MongoDB.
Proof.
  unfold handler_of, isinstance_exn. destruct (exn_cls e); try discriminate;
    reflexivity.
Qed.

(** X11.  Once [MongoClient] has returned a connection, [save_to_mongo]
    makes one insert attempt, never a second one, and the close of that
    connection is the last thing it does: the events it appends are the
    connection, the insert, at most one logger call, and the close. *)
Theorem save_to_mongo_one_attempt_then_close
    (w : World) (conn : nat) (document : pyval) (db coll : string) (t : trace) :
  MongoClient w mongo_uri = inr conn ->
  exists mid,
    snd (save_to_mongo w document db coll t) =
      t ++ EvMongoClient mongo_uri conn
        :: EvInsertOne conn db coll document
        :: mid ++ [EvClose conn] /\
    (mid = [] \/ exists m, mid = [EvLog ERROR m]) /\
    (forall oid, insert_one w conn db coll document = inr oid -> mid = []).
Proof.
  intros Hc. unfold save_to_mongo, save_body. rewrite Hc.
  destruct (insert_one w conn db coll document) as [e | oid];
    [destruct (isinstance_exn e PyMongoError || isinstance_exn e ConnectionFailure) |];
    cbn [snd].
  - exists [EvLog ERROR (FLit "MongoDB error: " :: exn_msg e)].
    rewrite <- !app_assoc. split; [reflexivity |].
    split; [right; eexists; reflexivity | discriminate].
  - exists []. rewrite <- !app_assoc. split; [reflexivity |].
    split; [left; reflexivity | reflexivity].
  - exists []. rewrite <- !app_assoc. split; [reflexivity |].
    split; [left; reflexivity | reflexivity].
Qed.

Lemma save_to_mongo_one_attempt_then_close_witness :
  exists mid,
    snd (save_to_mongo store_down_world aspirin_doc "science_db" "compounds" []) =
      [] ++ EvMongoClient mongo_uri 7
        :: EvInsertOne 7 "science_db" "compounds" aspirin_doc
        :: mid ++ [EvClose 7%nat] /\
    (mid = [] \/ exists m, mid = [EvLog ERROR m]) /\
    (forall oid,
        insert_one store_down_world 7 "science_db" "compounds" aspirin_doc
          = inr oid -> mid = []).
Proof.
  apply (save_to_mongo_one_attempt_then_close store_down_world 7 aspirin_doc
           "science_db" "compounds" []).
  reflexivity.
Defined.

(** X12.  When the insert raises, [save_to_mongo] raises that same
    exception again after closing the connection, and it logs
    "MongoDB error: ..." at level ERROR exactly when the exception is a
    PyMongoError; any other exception passes without a log line. *)
Theorem save_to_mongo_reraises
    (w : World) (conn : nat) (e : exn) (document : pyval) (db coll : string)
    (t : trace) :
  MongoClient w mongo_uri = inr conn ->
  insert_one w conn db coll document = inl e ->
  fst (save_to_mongo w document db coll t) = inl e /\
  closes (snd (save_to_mongo w document db coll t)) = closes t ++ [conn] /\
  logged (snd (save_to_mongo w document db coll t)) =
    logged t ++
    (if isinstance_exn e PyMongoError
     then [(ERROR, FLit "MongoDB error: " :: exn_msg e)]
     else []).
Proof.
  intros Hc Hi. unfold save_to_mongo, save_body. rewrite Hc, Hi.
  unfold isinstance_exn. rewrite connection_failure_is_mongo.
  destruct (issubclass (exn_cls e) PyMongoError); cbn [fst snd];
    rewrite ?closes_app, ?logged_app; cbn; rewrite ?app_nil_r;
    repeat split; reflexivity.
Qed.

Lemma save_to_mongo_reraises_witness :
  (fst (save_to_mongo store_down_world aspirin_doc "science_db" "compounds" [])
     = inl server_gone /\
   logged (snd (save_to_mongo store_down_world aspirin_doc "science_db"
                  "compounds" []))
     = [(ERROR, FLit "MongoDB error: " :: exn_msg server_gone)]) /\
  (fst (save_to_mongo store_typeerror_world aspirin_doc "science_db"
          "compounds" [])
     = inl invalid_document /\
   logged (snd (save_to_mongo store_typeerror_world aspirin_doc "science_db"
                  "compounds" []))
     = []).
Proof.
  split.
  - destruct (save_to_mongo_reraises store_down_world 7 server_gone aspirin_doc
                "science_db" "compounds" [] eq_refl eq_refl) as (Hr & _ & Hl).
    split; [exact Hr | exact Hl].
  - destruct (save_to_mongo_reraises store_typeerror_world 7 invalid_document
                aspirin_doc "science_db" "compounds" [] eq_refl eq_refl)
      as (Hr & _ & Hl).
    split; [exact Hr | exact Hl].
Defined.

(** X13.  A PyMongoError of the insert is logged twice during a run: once
    by [save_to_mongo] before the connection is closed and once more,
    with the same text, by the entry point, which files the run under
    "MongoDB error". *)
Theorem store_error_is_logged_twice
    (w : World) (name : pyval) (s : string) (m : mol w) (conn : nat)
    (e : exn) (t t1 : trace) :
  fetch_data w name default_base_url t =
    (inr (PyDict [("name", name); ("smiles", PyStr s)]), t1) ->
  MolFromSmiles w s = Some m ->
  MongoClient w mongo_uri = inr conn ->
  insert_one w conn "science_db" "compounds"
    (PyDict [("name", name); ("smiles", PyStr s);
             ("descriptors", descriptor_set w m)]) = inl e ->
  isinstance_exn e PyMongoError = true ->
  fst (main_with w name t) = inr (Handled MongoDB e) /\
  logged (snd (main_with w name t)) =
    logged t1 ++ [(ERROR, FLit "MongoDB error: " :: exn_msg e);
                  (ERROR, FLit "MongoDB error: " :: exn_msg e)] /\
  closes (snd (main_with w name t)) = closes t1 ++ [conn] /\
  snd (main_with w name t) =
    t1 ++ [EvPrint [FLit "Fetched from PubChem:"; FLit " ";
                    FStr (PyDict [("name", name); ("smiles", PyStr s)])];
           EvPrint [FLit "Descriptors:"; FLit " "; FStr (descriptor_set w m)];
           EvMongoClient mongo_uri conn;
           EvInsertOne conn "science_db" "compounds"
             (PyDict [("name", name); ("smiles", PyStr s);
                      ("descriptors", descriptor_set w m)]);
           EvLog ERROR (FLit "MongoDB error: " :: exn_msg e);
           EvClose conn;
           EvLog ERROR (FLit "MongoDB error: " :: exn_msg e)].
Proof.
  intros Hf Hm Hc Hi He.
  destruct (fetch_data_success_inv w name _ t t1 _ Hf)
    as (n & v & data & props & -> & _ & Hr & Hv & _).
  injection Hr as <-.
  assert (Hs : s <> "") by (intros ->; discriminate Hv).
  set (doc := PyDict [("name", PyStr n); ("smiles", PyStr s);
                      ("descriptors", descriptor_set w m)]) in *.
  assert (E : main_with w (PyStr n) t =
    (inr (Handled MongoDB e),
     t1 ++ [EvPrint [FLit "Fetched from PubChem:"; FLit " ";
                     FStr (PyDict [("name", PyStr n); ("smiles", PyStr s)])];
            EvPrint [FLit "Descriptors:"; FLit " "; FStr (descriptor_set w m)];
            EvMongoClient mongo_uri conn;
            EvInsertOne conn "science_db" "compounds" doc;
            EvLog ERROR (FLit "MongoDB error: " :: exn_msg e);
            EvClose conn;
            EvLog ERROR (FLit "MongoDB error: " :: exn_msg e)])).
  { unfold main_with, pipeline. unfold bind at 1. rewrite Hf. run_M.
    cbn [py_getitem_str dict_lookup String.eqb Ascii.eqb Bool.eqb].
    rewrite (compute_descriptors_parsed w s m _ Hs Hm).
    cbn [py_unpack_mapping dict_set String.eqb Ascii.eqb Bool.eqb].
    fold doc. unfold save_to_mongo, save_body. rewrite Hc, Hi, He.
    cbn [orb]. rewrite (mongo_error_handler e He).
    cbn [category_level category_label].
    rewrite <- !app_assoc. reflexivity. }
  rewrite E. cbn [fst snd]. rewrite !logged_app, !closes_app.
  cbn [logged closes flat_map app]. rewrite ?app_nil_r.
  repeat split; reflexivity.
Qed.

Lemma store_error_is_logged_twice_witness :
  fst (main store_down_world []) = inr (Handled MongoDB server_gone) /\
  logged (snd (main store_down_world [])) =
    logged (snd (fetch_data store_down_world (PyStr "aspirin")
                   default_base_url []))
      ++ [(ERROR, FLit "MongoDB error: " :: exn_msg server_gone);
          (ERROR, FLit "MongoDB error: " :: exn_msg server_gone)] /\
  closes (snd (main store_down_world [])) =
    closes (snd (fetch_data store_down_world (PyStr "aspirin")
                   default_base_url [])) ++ [7%nat].
Proof.
  destruct (store_error_is_logged_twice store_down_world (PyStr "aspirin")
              aspirin_smiles Aspirin 7 server_gone []
              (snd (fetch_data store_down_world (PyStr "aspirin")
                      default_base_url []))
              eq_refl eq_refl eq_refl eq_refl eq_refl) as (Ho & Hl & Hc & _).
  split; [exact Ho |]. split; [exact Hl | exact Hc].
Defined.

(** ** Invariants of a whole run *)

Lemma save_to_mongo_constructor_failure_inserts
    (w : World) (e : exn) (document : pyval) (db coll : string) (t : trace) :
  MongoClient w mongo_uri = inl e ->
  inserted_docs (snd (save_to_mongo w document db coll t)) = inserted_docs t.
Proof.
  intros Hc. unfold save_to_mongo, save_body. rewrite Hc.
  destruct (isinstance_exn e PyMongoError || isinstance_exn e ConnectionFailure);
    cbn [snd]; rewrite ?inserted_docs_app; cbn; rewrite ?app_nil_r; reflexivity.
Qed.

Lemma store_events_app_quiet (t evs : trace) :
  store_events evs = ([], [], []) ->
  store_events (t ++ evs) = store_events t.
Proof.
  unfold store_events. intros H. injection H as Ho Hc Hi.
  rewrite opened_app, closes_app, inserted_docs_app, Ho, Hc, Hi, !app_nil_r.
  reflexivity.
Qed.

Lemma fetch_data_store_events
    (w : World) (name : pyval) (base : string) (t : trace) :
  store_events (snd (fetch_data w name base t)) = store_events t.
Proof.
  destruct (negb (truthy name) || negb (isinstance_str name)) eqn:Hname.
  - unfold fetch_data. rewrite Hname. reflexivity.
  - destruct (name_check_inv _ Hname) as (n & -> & Hn).
    destruct (fetch_data_events w base n t Hn) as (evs & -> & _ & Hi & Ho & Hc).
    apply store_events_app_quiet. unfold store_events. cbn.
    fold (opened evs) (closes evs) (inserted_docs evs).
    rewrite Hi, Ho, Hc. reflexivity.
Qed.

(** What the body of the entry point does to the store: nothing, or one
    connection opened, one complete document inserted through it, and
    that connection closed. *)
Lemma pipeline_store_events
    (w : World) (name : pyval) (t t' : trace) (r : result pyval) :
  pipeline w name t = (r, t') ->
  store_events t' = store_events t \/
  exists n s m conn,
    name = PyStr n /\ MolFromSmiles w s = Some m /\
    store_events t' =
      (opened t ++ [conn], closes t ++ [conn],
       inserted_docs t ++
       [PyDict [("name", PyStr n); ("smiles", PyStr s);
                ("descriptors", descriptor_set w m)]]).
Proof.
  pose proof (fetch_data_store_events w name default_base_url t) as Hfs.
  unfold pipeline. unfold bind at 1.
  destruct (fetch_data w name default_base_url t) as [[e | rec] t1] eqn:Hf;
    cbn [snd] in Hfs; [intros H; injection H as _ <-; left; exact Hfs |].
  destruct (fetch_data_success_inv _ _ _ _ _ _ Hf)
    as (n & v & data & props & -> & Hn & -> & Hv & _).
  run_M. cbn [py_getitem_str dict_lookup String.eqb Ascii.eqb Bool.eqb].
  rewrite compute_descriptors_pure.
  destruct (fst (compute_descriptors w v [])) as [e | ds] eqn:Hd.
  - intros H. injection H as _ <-. left. rewrite <- Hfs.
    apply store_events_app_quiet. reflexivity.
  - assert (Hd' : compute_descriptors w v [] = (inr ds, []))
      by (rewrite (compute_descriptors_pure w v []), Hd; reflexivity).
    destruct (compute_descriptors_success_inv _ _ _ _ _ Hd')
      as (s & m & -> & Hs & Hm & -> & _).
    cbn [py_unpack_mapping dict_set String.eqb Ascii.eqb Bool.eqb].
    set (doc := PyDict [("name", PyStr n); ("smiles", PyStr s);
                        ("descriptors", descriptor_set w m)]).
    set (t3 := (t1 ++ _) ++ _).
    assert (H3 : store_events t3 = store_events t).
    { unfold t3. rewrite <- app_assoc, <- Hfs.
      apply store_events_app_quiet. reflexivity. }
    unfold store_events in H3. injection H3 as Ho3 Hc3 Hi3.
    destruct (MongoClient w mongo_uri) as [e | conn] eqn:Hc.
    + destruct (save_to_mongo_constructor_failure w e doc "science_db"
                  "compounds" t3 Hc) as (Hr & Hcl & Hop).
      pose proof (save_to_mongo_constructor_failure_inserts w e doc
                    "science_db" "compounds" t3 Hc) as Hin.
      destruct (save_to_mongo w doc "science_db" "compounds" t3) as [r4 t4].
      cbn [fst snd] in *. subst r4. intros H. injection H as _ <-.
      left. unfold store_events.
      rewrite Hcl, Hop, Hin, Ho3, Hc3, Hi3. reflexivity.
    + destruct (save_to_mongo_closes_once w conn doc "science_db" "compounds"
                  t3 Hc) as (_ & Hop & Hcl & Hin).
      destruct (save_to_mongo w doc "science_db" "compounds" t3) as [[e | id] t4];
        cbn [snd] in *; intros H; injection H as _ <-;
        right; exists n, s, m, conn;
        (split; [reflexivity |]); (split; [exact Hm |]);
        unfold store_events;
        rewrite ?opened_app, ?closes_app, ?inserted_docs_app;
        rewrite Hcl, Hop, Hin, Ho3, Hc3, Hi3; cbn; rewrite ?app_nil_r;
        reflexivity.
Qed.

(** The handlers of the entry point add one logger call at most. *)
Lemma main_with_store_events (w : World) (name : pyval) (t : trace) :
  store_events (snd (main_with w name t)) = store_events (snd (pipeline w name t)).
Proof.
  unfold main_with.
  destruct (pipeline w name t) as [[e | id] t']; [| reflexivity].
  destruct (handler_of e); [| reflexivity].
  cbn [snd]. apply store_events_app_quiet. reflexivity.
Qed.

(** X14.  No run persists an incomplete document: by the time the entry
    point is done, either nothing was handed to [insert_one], or exactly
    one document was, and it has the three fields name, smiles and
    descriptors, the last with RDKit's four values. *)
Theorem run_inserts_nothing_or_a_complete_document
    (w : World) (name : pyval) (t : trace) :
  inserted_docs (snd (main_with w name t)) = inserted_docs t \/
  exists n s m,
    name = PyStr n /\ MolFromSmiles w s = Some m /\
    inserted_docs (snd (main_with w name t)) =
      inserted_docs t ++
      [PyDict [("name", PyStr n); ("smiles", PyStr s);
               ("descriptors",
                PyDict [("MolWt", PyFloat (MolWt w m));
                        ("LogP", PyFloat (MolLogP w m));
                        ("NumHDonors", PyInt (NumHDonors w m));
                        ("NumHAcceptors", PyInt (NumHAcceptors w m))])]].
Proof.
  pose proof (main_with_store_events w name t) as Hm.
  destruct (pipeline_store_events w name t _ _ (surjective_pairing _))
    as [H | (n & s & m & conn & Hn & Hs & H)];
    rewrite <- Hm in H; unfold store_events in H; injection H as _ _ Hi.
  - left. exact Hi.
  - right. exists n, s, m. repeat split; assumption.
Qed.

(** X15.  No run leaks a store connection, however it ends: the
    connections a run opens (one at most) are the connections it has
    closed when the entry point is done, each closed once. *)
Theorem run_closes_what_it_opens
    (w : World) (name : pyval) (t : trace) :
  exists conns,
    opened (snd (main_with w name t)) = opened t ++ conns /\
    closes (snd (main_with w name t)) = closes t ++ conns /\
    (List.length conns <= 1)%nat.
Proof.
  pose proof (main_with_store_events w name t) as Hm.
  destruct (pipeline_store_events w name t _ _ (surjective_pairing _))
    as [H | (n & s & m & conn & Hn & Hs & H)];
    rewrite <- Hm in H; unfold store_events in H; injection H as Ho Hc _.
  - exists []. rewrite Ho, Hc, !app_nil_r. repeat split. apply Nat.le_0_l.
  - exists [conn]. rewrite Ho, Hc. repeat split. apply Nat.le_refl.
Qed.

(** X16.  The entry point lets no Exception through: an exception that
    leaves [main] is an instance of none of the classes its four clauses
    name, so it is a bare BaseException such as KeyboardInterrupt, and
    the entry point has logged nothing about it. *)
Theorem no_Exception_escapes_the_entry_point
    (w : World) (name : pyval) (e : exn) (t t' : trace) :
  main_with w name t = (inl e, t') ->
  isinstance_exn e Exception = false /\
  isinstance_exn e ValueError = false /\
  isinstance_exn e RequestException = false /\
  isinstance_exn e PyMongoError = false /\
  pipeline w name t = (inl e, t').
Proof.
  unfold main_with.
  destruct (pipeline w name t) as [[e0 | id] t0]; [| discriminate].
  destruct (handler_of e0) eqn:Hh; [discriminate |].
  intros H. injection H as <- <-.
  unfold handler_of in Hh.
  destruct (isinstance_exn e0 ValueError); [discriminate |].
  destruct (isinstance_exn e0 RequestException); [discriminate |].
  destruct (isinstance_exn e0 PyMongoError); [discriminate |].
  destruct (isinstance_exn e0 Exception); [discriminate |].
  repeat split; reflexivity.
Qed.

Lemma no_Exception_escapes_the_entry_point_witness :
  isinstance_exn interrupted Exception = false /\
  isinstance_exn interrupted ValueError = false /\
  isinstance_exn interrupted RequestException = false /\
  isinstance_exn interrupted PyMongoError = false /\
  pipeline interrupted_world (PyStr "aspirin") [] =
    (inl interrupted, [EvHttpGet (default_base_url ++ "/aspirin/JSON")%string]).
Proof.
  apply (no_Exception_escapes_the_entry_point interrupted_world (PyStr "aspirin")
           interrupted []
           [EvHttpGet (default_base_url ++ "/aspirin/JSON")%string]).
  reflexivity.
Defined.

(** X17.  A run for a name that is empty or no str does no input or
    output besides one logger call: the entry point files the failure
    under "Validation error" at level ERROR, and no request, no store
    connection and no print has taken place. *)
Theorem invalid_name_run_only_logs
    (w : World) (name : pyval) (t : trace) :
  name = PyStr "" \/ isinstance_str name = false ->
  main_with w name t =
  (inr (Handled Validation (invalid_name_error name)),
   t ++ [EvLog ERROR [FLit "Validation error: ";
                      FLit "Invalid compound name "; FStr name]]).
Proof.
  intros H.
  assert (E : fetch_data w name default_base_url t =
              (inl (invalid_name_error name), t)).
  { unfold fetch_data.
    destruct H as [-> | H]; [reflexivity |].
    rewrite H. cbn [negb]. rewrite orb_true_r. reflexivity. }
  rewrite (main_with_fetch_failure w name t t _ Validation E eq_refl).
  reflexivity.
Qed.

Lemma invalid_name_run_only_logs_witness :
  main_with good_world PyNone [] =
  (inr (Handled Validation (invalid_name_error PyNone)),
   [EvLog ERROR [FLit "Validation error: ";
                 FLit "Invalid compound name "; FStr PyNone]]).
Proof.
  apply (invalid_name_run_only_logs good_world PyNone []).
  right. reflexivity.
Defined.
